(** * Account service of the authentication repository

    A shallow embedding of [internal/models/account.go] (the data model
    and the repository contract) and of the account service
    ([AccountService]: [genAuthOutput], [createFromExternal],
    [CreateFromGoogleProvider], [CreateFromFacebookProvider],
    [CreateFromEmailProvider], [CreateFromPhoneProvider], [ExchangeCode],
    [RefreshToken]).

    Go strings are [string]; a Go pointer that may be [nil] is an
    [option]; a Go [(value, error)] pair is a [result]; an [error] built
    by [errors.New] is its message. *)

From Stdlib Require Import List String Bool ZArith Lia.
Import ListNotations.
Open Scope string_scope.

Set Implicit Arguments.

(** ** Errors and results *)

Definition error := string.

Inductive result (A : Type) : Type :=
| Ok (a : A)
| Err (e : error).
Arguments Ok {A} a.
Arguments Err {A} e.

Definition is_ok {A} (r : result A) : bool :=
  match r with Ok _ => true | Err _ => false end.

(** [*sql.Tx]: the service opens one transaction per operation, so a
    handle carries no data; [nil] is [None]. *)
Inductive sqlTx : Type := tx_handle.

(** ** internal/models/account.go *)

Module models.

Record CreateAccountSignInProvider := {
  sip_Id : string;
  sip_Type : string;
  sip_AccessToken : string;
  sip_RefreshToken : option string;
  sip_ExpiresAt : Z
}.

Record CreateAccountPhone := {
  CountryCode : string;
  Number : string
}.

Record CreateAccountInput := {
  ca_Db : option sqlTx;
  ca_Email : string;
  ca_Phone : CreateAccountPhone;
  ca_SignInProviders : list CreateAccountSignInProvider
}.

Record CreateAccountOutput := { ca_Id : string }.

Record GetAccountByEmailInput := {
  gbe_Db : option sqlTx;
  gbe_Email : string
}.

Record GetAccountByEmailOutput := {
  gbe_AccountId : string;
  gbe_OutEmail : string
}.

Record GetAccountByPhoneInput := {
  gbp_Db : option sqlTx;
  gbp_CountryCode : string;
  gbp_Number : string
}.

Record GetAccountByPhoneOutput := {
  gbp_AccountId : string;
  gbp_OutCountryCode : string;
  gbp_OutNumber : string
}.

Record GetManyAccountsByProviderInput := {
  gmp_Db : option sqlTx;
  gmp_ProviderId : string;
  gmp_ProviderType : string;
  gmp_Email : string
}.

Record GetManyAccountsByProviderOutput := {
  AccountId : string;
  ProviderId : string;
  ProviderType : string;
  Email : string
}.

Record AuthOutput := {
  RefreshToken_ : string;
  AccessToken_ : string;
  ExpiresAt_ : Z
}.

Record CreateAccountFromEmailInput := { cfe_Email : string }.

Record CreateAccountFromPhoneInput := { cfp_Phone : CreateAccountPhone }.

Record CreateAccountFromExternalProviderInput := {
  cfx_Code : string;
  cfx_OriginUrl : string
}.

Record ExchangeAccountCodeInput := {
  eac_AccountId : string;
  eac_Code : string
}.

Record RefreshAccountTokenInput := {
  rat_AccountId : string;
  rat_RefreshToken : string
}.

Record RefreshAccountTokenOutput := {
  rat_AccessToken : string;
  rat_ExpiresAt : Z
}.

(** Modelled from the spec: the inputs and outputs of the refresh-token and
    magic-link repositories, whose declarations are not among the sources;
    the fields are those the service sets and reads. *)
Record CreateRefreshTokenInput := {
  crt_Db : option sqlTx;
  crt_AccountId : string
}.

Record CreateRefreshTokenOutput := { RefreshToken : string }.

Record GetRefreshTokenInput := {
  grt_Db : option sqlTx;
  grt_AccountId : string;
  grt_RefreshToken : string
}.

Record UpsertMagicLinkRefreshTokenInput := {
  uml_Db : option sqlTx;
  uml_AccountId : string;
  uml_IsFirstAccess : bool
}.

Record GetMagicLinkRefreshTokenInput := {
  gml_Db : option sqlTx;
  gml_AccountId : string;
  gml_Code : string
}.

Record MagicLinkCode := {
  ml_Code : string;
  IsFirstAccess : bool
}.

(** The repository contract [AccountRepository].  A method that takes the
    transaction in [Db] runs on the store as the transaction sees it and
    gives back the store it leaves. *)
Section Repositories.

Variable Store : Type.

Record AccountRepository := {
  Create :
    CreateAccountInput -> Store -> result CreateAccountOutput * Store;
  GetManyByProvider :
    GetManyAccountsByProviderInput -> Store ->
    result (list GetManyAccountsByProviderOutput) * Store;
  GetByEmail :
    GetAccountByEmailInput -> Store ->
    result (option GetAccountByEmailOutput) * Store;
  GetByPhone :
    GetAccountByPhoneInput -> Store ->
    result (option GetAccountByPhoneOutput) * Store
}.

(** Modelled from the spec: the declarations of the refresh-token and the
    magic-link repositories are not among the sources.  The records hold
    the fields the service writes and reads; the methods follow the store
    contracts of the spec: refresh-token store [create(accountId) -> token]
    and [exists(accountId, token) -> bool], magic-link store
    [upsert(accountId, isFirstAccess) -> {code, isFirstAccess}] and
    [get(accountId, code) -> record|absent]. *)
Record RefreshTokenRepository := {
  RefreshToken_Create :
    CreateRefreshTokenInput -> Store ->
    result CreateRefreshTokenOutput * Store;
  RefreshToken_Get :
    GetRefreshTokenInput -> Store -> result bool * Store
}.

Record MagicLinkCodeRepository := {
  MagicLinkCode_Upsert :
    UpsertMagicLinkRefreshTokenInput -> Store ->
    result MagicLinkCode * Store;
  MagicLinkCode_Get :
    GetMagicLinkRefreshTokenInput -> Store ->
    result (option MagicLinkCode) * Store
}.

End Repositories.

End models.

Import models.

(** ** The adapters *)

(** Modelled from the spec: the adapters package is not among the sources.
    The records hold the fields the service reads and writes, the methods
    follow the adapter contracts of the spec: provider adapter
    [exchangeCode(code, originUrl) -> {accessToken, refreshToken, expiresAt,
    scopes}], [hasRequiredScopes(scopes) -> bool] and
    [getUserData(accessToken) -> {id, email, isEmailVerified}]; notification
    adapter [sendVerificationCode(destination, code) -> success|error]; token
    adapter [mintAccess(accountId) -> {accessToken, expiresAt}]. *)
Module adapters.

Record ExchangeCodeInput := {
  Code : string;
  OriginUrl : string
}.

Record ExchangeCodeOutput := {
  xc_AccessToken : string;
  xc_RefreshToken : string;
  xc_ExpiresAt : Z;
  Scopes : list string
}.

Record GetUserDataOutput := {
  Id : string;
  ud_Email : string;
  IsEmailVerified : bool
}.

Record GenAccessInput := { ga_AccountId : string }.

Record GenAccessOutput := {
  AccessToken : string;
  ExpiresAt : Z
}.

Record SendVerificationCodeEmailInput := {
  sve_To : string;
  sve_Code : string
}.

Record SendVerificationCodeSmsInput := {
  svs_To : string;
  svs_Code : string
}.

Record SignInProviderAdapter := {
  ExchangeCode : ExchangeCodeInput -> result ExchangeCodeOutput;
  HasRequiredScopes : list string -> bool;
  GetUserData : string -> result GetUserDataOutput
}.

Record TokenAdapter := {
  GenAccess : GenAccessInput -> result GenAccessOutput
}.

(** A send returns an [error], [nil] on success. *)
Record EmailAdapter := {
  SendVerificationCodeEmail : SendVerificationCodeEmailInput -> option error
}.

Record SmsAdapter := {
  SendVerificationCodeSms : SendVerificationCodeSmsInput -> option error
}.

End adapters.

(** The zero value of a Go struct of strings. *)
Definition zero_related : GetManyAccountsByProviderOutput :=
  {| AccountId := ""; ProviderId := ""; ProviderType := ""; Email := "" |}.

Definition zero_phone : CreateAccountPhone :=
  {| CountryCode := ""; Number := "" |}.

(** ** Account linking: the scan of [createFromExternal] (lines 127-163)

    [sameEmail] and [sameProvider] are pointers; a pointer is modelled by
    the record it points to, [nil] by [None].  [new(T)] is a pointer to the
    zero value, hence [Some zero_related]. *)

Definition ptr := option GetManyAccountsByProviderOutput.

Definition new_related : ptr := Some zero_related.

Definition not_nil (p : ptr) : bool :=
  match p with Some _ => true | None => false end.

Definition same_email_as (email : string)
    (v : GetManyAccountsByProviderOutput) : bool :=
  Email v =? email.

Definition same_provider_as (providerId providerType : string)
    (v : GetManyAccountsByProviderOutput) : bool :=
  (ProviderId v =? providerId) && (ProviderType v =? providerType).

(** The [for _, v := range relatedAccounts] loop, started with the given
    values of the two pointers.  The recursive call is the next iteration;
    returning without it is the [break].  [&v] is modelled by the value
    [v] has when the address is taken: the loop variable is a copy of the
    element, and it is assigned again only by a next iteration, which the
    source, starting from two [new(...)] pointers, never reaches
    ([scanRelated_not_nil] below). *)
Fixpoint scanRelated (email providerId providerType : string)
    (sameEmail sameProvider : ptr)
    (relatedAccounts : list GetManyAccountsByProviderOutput)
  : ptr * ptr :=
  match relatedAccounts with
  | [] => (sameEmail, sameProvider)
  | v :: rest =>
      let sameEmail :=
        if same_email_as email v then Some v else sameEmail in
      let sameProvider :=
        if same_provider_as providerId providerType v
        then Some v else sameProvider in
      if not_nil sameEmail && not_nil sameProvider
      then (sameEmail, sameProvider)
      else scanRelated email providerId providerType
             sameEmail sameProvider rest
  end.

(** The scan as the source runs it: both pointers start at [new(...)]. *)
Definition scan (email providerId providerType : string)
    (relatedAccounts : list GetManyAccountsByProviderOutput) : ptr * ptr :=
  scanRelated email providerId providerType
    new_related new_related relatedAccounts.

(** How many elements of the list the loop reads before it ends. *)
Fixpoint scanVisited (email providerId providerType : string)
    (sameEmail sameProvider : ptr)
    (relatedAccounts : list GetManyAccountsByProviderOutput) : nat :=
  match relatedAccounts with
  | [] => 0
  | v :: rest =>
      let sameEmail :=
        if same_email_as email v then Some v else sameEmail in
      let sameProvider :=
        if same_provider_as providerId providerType v
        then Some v else sameProvider in
      if not_nil sameEmail && not_nil sameProvider
      then 1
      else S (scanVisited email providerId providerType
                sameEmail sameProvider rest)
  end.

(** The three [if]s after the loop (lines 146-163), on a non-empty list:
    the account id, or the error of the last [if]. *)
Definition pickAccount (providerType : string) (sameEmail sameProvider : ptr)
  : result string :=
  let accountId := "" in
  let accountId :=
    match sameEmail, sameProvider with
    | Some e, None =>
        if negb (ProviderType e =? providerType) then AccountId e
        else accountId
    | _, _ => accountId
    end in
  let accountId :=
    match sameProvider with
    | Some p => AccountId p
    | None => accountId
    end in
  if accountId =? "" then Err "fail to relate account" else Ok accountId.

(** The whole [len(relatedAccounts) > 0] branch. *)
Definition relateAccount (email providerId providerType : string)
    (relatedAccounts : list GetManyAccountsByProviderOutput)
  : result string :=
  let '(sameEmail, sameProvider) :=
    scan email providerId providerType relatedAccounts in
  pickAccount providerType sameEmail sameProvider.

(** ** The world of one service operation

    The service reaches the stores only through a transaction.  The world
    keeps the store as committed, the store as the open transaction sees
    it, the state of the transaction and the log of the calls made, oldest
    first. *)

(** [sql.DB]: [Begin] gives a transaction or fails. *)
Record sqlDB := { Begin : result sqlTx }.

Inductive TxStatus : Type :=
| TxNone
| TxOpen
| TxCommitted
| TxRolledBack.

Inductive Event : Type :=
| EvBegin (ok : bool)
| EvCommit
| EvRollback
| EvExchangeCode (i : adapters.ExchangeCodeInput) (ok : bool)
| EvHasRequiredScopes (scopes : list string) (has : bool)
| EvGetUserData (accessToken : string) (ok : bool)
| EvGetManyByProvider (i : GetManyAccountsByProviderInput) (ok : bool)
| EvCreateAccount (i : CreateAccountInput) (ok : bool)
| EvGetByEmail (i : GetAccountByEmailInput) (ok : bool)
| EvGetByPhone (i : GetAccountByPhoneInput) (ok : bool)
| EvUpsertMagicLink (i : UpsertMagicLinkRefreshTokenInput) (ok : bool)
| EvGetMagicLink (i : GetMagicLinkRefreshTokenInput) (ok : bool)
| EvCreateRefreshToken (i : CreateRefreshTokenInput) (ok : bool)
| EvGetRefreshToken (i : GetRefreshTokenInput) (ok : bool)
| EvGenAccess (i : adapters.GenAccessInput) (ok : bool)
| EvSendEmail (i : adapters.SendVerificationCodeEmailInput) (ok : bool)
| EvSendSms (i : adapters.SendVerificationCodeSmsInput) (ok : bool).

(** A call returns a value or panics. *)
Inductive outcome (A : Type) : Type :=
| Val (a : A)
| Panic (msg : string).
Arguments Val {A} a.
Arguments Panic {A} msg.

Definition nil_dereference : string :=
  "invalid memory address or nil pointer dereference".

Definition negative_counter : string :=
  "sync: negative WaitGroup counter".

Record genAuthOutputInput := {
  db : option sqlTx;
  accountId : string;
  isFirstAccess : bool;
  refresh : bool
}.

Record createFromExternalProviderInput := {
  xdb : option sqlTx;
  providerService : adapters.SignInProviderAdapter;
  providerType : string;
  code : string;
  originUrl : string
}.

(** What a function whose last statement is
    [return serv.genAuthOutput(...)] has done when it reaches that
    statement or returns before it. *)
Inductive tail (A : Type) : Type :=
| Return (r : result A)
| ReturnGenAuthOutput (i : genAuthOutputInput).
Arguments Return {A} r.
Arguments ReturnGenAuthOutput {A} i.

Section Service.

Variable Store : Type.

Record AccountService := {
  GoogleAdapter : adapters.SignInProviderAdapter;
  FacebookAdapter : adapters.SignInProviderAdapter;
  TokenAdapter : adapters.TokenAdapter;
  EmailAdapter : adapters.EmailAdapter;
  SmsAdapter : adapters.SmsAdapter;
  Db : sqlDB;
  AccountRepository : models.AccountRepository Store;
  RefreshTokenRepository : models.RefreshTokenRepository Store;
  MagicLinkCodeRepository : models.MagicLinkCodeRepository Store
}.

Record World := {
  committed : Store;
  working : Store;
  status : TxStatus;
  log : list Event
}.

Definition emit (e : Event) (w : World) : World :=
  {| committed := committed w; working := working w;
     status := status w; log := log w ++ [e] |}.

(** [tx.Commit()] and [tx.Rollback()] of database/sql: on an open
    transaction they publish or drop what it wrote; on a finished one they
    change nothing. *)
Definition do_commit (w : World) : World :=
  match status w with
  | TxOpen =>
      {| committed := working w; working := working w;
         status := TxCommitted; log := log w ++ [EvCommit] |}
  | _ => emit EvCommit w
  end.

Definition do_rollback (w : World) : World :=
  match status w with
  | TxOpen =>
      {| committed := committed w; working := committed w;
         status := TxRolledBack; log := log w ++ [EvRollback] |}
  | _ => emit EvRollback w
  end.

(** A repository method called with the transaction. *)
Definition store_call {I O : Type}
    (op : I -> Store -> result O * Store) (ev : I -> bool -> Event)
    (i : I) (w : World) : result O * World :=
  let '(r, st) := op i (working w) in
  (r, {| committed := committed w; working := st;
         status := status w; log := log w ++ [ev i (is_ok r)] |}).

(** An adapter method. *)
Definition adapter_call {I O : Type}
    (f : I -> result O) (ev : I -> bool -> Event)
    (i : I) (w : World) : result O * World :=
  (f i, emit (ev i (is_ok (f i))) w).

(** *** The monad of the sequential code: state and panics *)

Definition M (A : Type) : Type := World -> outcome A * World.

Definition ret {A : Type} (a : A) : M A := fun w => (Val a, w).

Definition bind {A B : Type} (m : M A) (k : A -> M B) : M B :=
  fun w =>
    match m w with
    | (Val a, w') => k a w'
    | (Panic msg, w') => (Panic msg, w')
    end.

Definition panic {A : Type} (msg : string) : M A := fun w => (Panic msg, w).

Definition lift {A : Type} (f : World -> A * World) : M A :=
  fun w => let '(a, w') := f w in (Val a, w').

Notation "x <- m ;; k" := (bind m (fun x => k))
  (at level 61, m at next level, right associativity).
Notation "m ;;; k" := (bind m (fun _ => k))
  (at level 61, right associativity).

Variable serv : AccountService.

Definition DbBegin : M (result sqlTx) :=
  fun w =>
    match Begin (Db serv) with
    | Ok tx =>
        (Val (Ok tx),
         {| committed := committed w; working := committed w;
            status := TxOpen; log := log w ++ [EvBegin true] |})
    | Err e => (Val (Err e), emit (EvBegin false) w)
    end.

(** A method of a [nil] [*sql.Tx] dereferences it. *)
Definition Commit (tx : option sqlTx) : M unit :=
  match tx with
  | None => panic nil_dereference
  | Some _ => fun w => (Val tt, do_commit w)
  end.

Definition Rollback (tx : option sqlTx) : M unit :=
  match tx with
  | None => panic nil_dereference
  | Some _ => fun w => (Val tt, do_rollback w)
  end.

(** *** genAuthOutput (lines 43-83)

    The function starts goroutines and joins them on a [sync.WaitGroup],
    so it is a transition system: the state holds the program point of the
    function, the counter of the WaitGroup, the deferred calls, the
    goroutines started and not yet run, and the three variables the
    goroutines share with the function.  A goroutine runs its one
    assignment in one step. *)

Inductive goroutine : Type :=
| GoCreateRefreshToken   (* lines 52-58 *)
| GoGenAccess.           (* lines 63-67 *)

Definition goroutine_eqb (a b : goroutine) : bool :=
  match a, b with
  | GoCreateRefreshToken, GoCreateRefreshToken => true
  | GoGenAccess, GoGenAccess => true
  | _, _ => false
  end.

Inductive pc : Type :=
| at_if_refresh       (* line 49: if i.refresh *)
| at_add_refresh      (* line 50: wg.Add(1) *)
| at_defer_refresh    (* line 51: defer wg.Done() *)
| at_go_refresh       (* line 52: go func() *)
| at_add_access       (* line 61: wg.Add(1) *)
| at_defer_access     (* line 62: defer wg.Done() *)
| at_go_access        (* line 63: go func() *)
| at_wait             (* line 69: wg.Wait() *)
| at_check_err        (* lines 71-82 *)
| at_deferred (r : outcome (result AuthOutput))
                      (* the deferred calls, before the return *)
| at_returned.

Inductive thread : Type :=
| Main
| Goroutine (g : goroutine).

Record gstate := {
  g_input : genAuthOutputInput;
  g_pc : pc;
  g_counter : Z;
  g_deferred : nat;
  g_spawned : list goroutine;
  g_refreshToken : option CreateRefreshTokenOutput;
  g_accessToken : option adapters.GenAccessOutput;
  g_err : option error;
  g_world : World;
  g_ret : option (outcome (result AuthOutput))
}.

Definition g_init (i : genAuthOutputInput) (w : World) : gstate :=
  {| g_input := i; g_pc := at_if_refresh; g_counter := 0%Z;
     g_deferred := 0; g_spawned := [];
     g_refreshToken := None; g_accessToken := None; g_err := None;
     g_world := w; g_ret := None |}.

Definition goto (p : pc) (s : gstate) : gstate :=
  {| g_input := g_input s; g_pc := p; g_counter := g_counter s;
     g_deferred := g_deferred s; g_spawned := g_spawned s;
     g_refreshToken := g_refreshToken s; g_accessToken := g_accessToken s;
     g_err := g_err s; g_world := g_world s; g_ret := g_ret s |}.

(** [wg.Add(delta)] *)
Definition wg_Add (delta : Z) (s : gstate) : gstate :=
  {| g_input := g_input s; g_pc := g_pc s;
     g_counter := (g_counter s + delta)%Z;
     g_deferred := g_deferred s; g_spawned := g_spawned s;
     g_refreshToken := g_refreshToken s; g_accessToken := g_accessToken s;
     g_err := g_err s; g_world := g_world s; g_ret := g_ret s |}.

(** [defer wg.Done()] *)
Definition defer_Done (s : gstate) : gstate :=
  {| g_input := g_input s; g_pc := g_pc s; g_counter := g_counter s;
     g_deferred := S (g_deferred s); g_spawned := g_spawned s;
     g_refreshToken := g_refreshToken s; g_accessToken := g_accessToken s;
     g_err := g_err s; g_world := g_world s; g_ret := g_ret s |}.

(** [go func() { ... }()] *)
Definition spawn (g : goroutine) (s : gstate) : gstate :=
  {| g_input := g_input s; g_pc := g_pc s; g_counter := g_counter s;
     g_deferred := g_deferred s; g_spawned := g_spawned s ++ [g];
     g_refreshToken := g_refreshToken s; g_accessToken := g_accessToken s;
     g_err := g_err s; g_world := g_world s; g_ret := g_ret s |}.

Definition is_spawned (g : goroutine) (s : gstate) : bool :=
  existsb (goroutine_eqb g) (g_spawned s).

Definition unspawn (g : goroutine) (l : list goroutine) : list goroutine :=
  filter (fun h => negb (goroutine_eqb g h)) l.

(** The body of a goroutine: one call, assigned to the result variable
    and to the shared [err]. *)
Definition run_goroutine (g : goroutine) (s : gstate) : gstate :=
  match g with
  | GoCreateRefreshToken =>
      let '(r, w) :=
        store_call (RefreshToken_Create (RefreshTokenRepository serv))
          EvCreateRefreshToken
          {| crt_Db := db (g_input s);
             crt_AccountId := accountId (g_input s) |}
          (g_world s) in
      {| g_input := g_input s; g_pc := g_pc s; g_counter := g_counter s;
         g_deferred := g_deferred s;
         g_spawned := unspawn g (g_spawned s);
         g_refreshToken :=
           match r with Ok o => Some o | Err _ => None end;
         g_accessToken := g_accessToken s;
         g_err := match r with Ok _ => None | Err e => Some e end;
         g_world := w; g_ret := g_ret s |}
  | GoGenAccess =>
      let '(r, w) :=
        adapter_call (adapters.GenAccess (TokenAdapter serv))
          EvGenAccess
          {| adapters.ga_AccountId := accountId (g_input s) |}
          (g_world s) in
      {| g_input := g_input s; g_pc := g_pc s; g_counter := g_counter s;
         g_deferred := g_deferred s;
         g_spawned := unspawn g (g_spawned s);
         g_refreshToken := g_refreshToken s;
         g_accessToken :=
           match r with Ok o => Some o | Err _ => None end;
         g_err := match r with Ok _ => None | Err e => Some e end;
         g_world := w; g_ret := g_ret s |}
  end.

(** Lines 71-82, what the function does once [wg.Wait()] has returned. *)
Definition after_wait (s : gstate) : M (result AuthOutput) :=
  match g_err s with
  | Some _ =>
      Rollback (db (g_input s)) ;;;
      ret (Err "fail to generate auth output")
  | None =>
      Commit (db (g_input s)) ;;;
      match g_accessToken s with
      | None => panic nil_dereference
      | Some accessToken =>
          match g_refreshToken s with
          | None => panic nil_dereference
          | Some refreshToken =>
              ret (Ok {| AccessToken_ := adapters.AccessToken accessToken;
                         ExpiresAt_ := adapters.ExpiresAt accessToken;
                         RefreshToken_ := RefreshToken refreshToken |})
          end
      end
  end.

(** The deferred [wg.Done()] calls run when the function returns; a
    [Done] that takes the counter below zero panics. *)
Definition run_deferred (r : outcome (result AuthOutput)) (s : gstate)
  : gstate :=
  let counter := (g_counter s - Z.of_nat (g_deferred s))%Z in
  {| g_input := g_input s; g_pc := at_returned; g_counter := counter;
     g_deferred := 0; g_spawned := g_spawned s;
     g_refreshToken := g_refreshToken s; g_accessToken := g_accessToken s;
     g_err := g_err s; g_world := g_world s;
     g_ret := Some (if (counter <? 0)%Z
                    then Panic negative_counter else r) |}.

(** One step of a thread; [None] when the thread cannot move: the function
    blocked in [wg.Wait()] or returned, a goroutine not started or done. *)
Definition step (t : thread) (s : gstate) : option gstate :=
  match t with
  | Main =>
      match g_pc s with
      | at_if_refresh =>
          Some (goto (if refresh (g_input s)
                      then at_add_refresh else at_add_access) s)
      | at_add_refresh => Some (goto at_defer_refresh (wg_Add 1 s))
      | at_defer_refresh => Some (goto at_go_refresh (defer_Done s))
      | at_go_refresh =>
          Some (goto at_add_access (spawn GoCreateRefreshToken s))
      | at_add_access => Some (goto at_defer_access (wg_Add 1 s))
      | at_defer_access => Some (goto at_go_access (defer_Done s))
      | at_go_access => Some (goto at_wait (spawn GoGenAccess s))
      | at_wait =>
          if (g_counter s =? 0)%Z
          then Some (goto at_check_err s) else None
      | at_check_err =>
          let '(r, w) := after_wait s (g_world s) in
          Some {| g_input := g_input s; g_pc := at_deferred r;
                  g_counter := g_counter s; g_deferred := g_deferred s;
                  g_spawned := g_spawned s;
                  g_refreshToken := g_refreshToken s;
                  g_accessToken := g_accessToken s;
                  g_err := g_err s; g_world := w; g_ret := g_ret s |}
      | at_deferred r => Some (run_deferred r s)
      | at_returned => None
      end
  | Goroutine g =>
      if is_spawned g s then Some (run_goroutine g s) else None
  end.

(** A schedule names the thread that moves next; a thread that cannot
    move leaves the state as it is. *)
Fixpoint run (sched : list thread) (s : gstate) : gstate :=
  match sched with
  | [] => s
  | t :: sched' =>
      run sched' (match step t s with Some s' => s' | None => s end)
  end.

(** The states the function can be in. *)
Inductive reachable (s0 : gstate) : gstate -> Prop :=
| reach_init : reachable s0 s0
| reach_step : forall t s s',
    reachable s0 s -> step t s = Some s' -> reachable s0 s'.

(** [genAuthOutput] under a schedule: what it has returned, if it has, and
    the world it leaves. *)
Definition genAuthOutput (sched : list thread) (i : genAuthOutputInput)
    (w : World) : option (outcome (result AuthOutput)) * World :=
  let s := run sched (g_init i w) in
  (g_ret s, g_world s).

(** A function that ends in [return serv.genAuthOutput(...)]. *)
Definition then_genAuthOutput (sched : list thread)
    (m : M (tail AuthOutput)) (w : World)
  : option (outcome (result AuthOutput)) * World :=
  match m w with
  | (Val (Return r), w') => (Some (Val r), w')
  | (Val (ReturnGenAuthOutput i), w') => genAuthOutput sched i w'
  | (Panic msg, w') => (Some (Panic msg), w')
  end.

(** *** createFromExternal (lines 85-193) *)

Definition createFromExternal_steps (i : createFromExternalProviderInput)
  : M (tail AuthOutput) :=
  exchangeCode <-
    lift (adapter_call (adapters.ExchangeCode (providerService i))
            EvExchangeCode
            {| adapters.Code := code i;
               adapters.OriginUrl := originUrl i |}) ;;
  match exchangeCode with
  | Err _ =>
      Rollback (xdb i) ;;; ret (Return (Err "fail to exchange code"))
  | Ok exchangeCode =>
  let hasRequiredScopes :=
    adapters.HasRequiredScopes (providerService i)
      (adapters.Scopes exchangeCode) in
  lift (fun w =>
    (tt, emit (EvHasRequiredScopes (adapters.Scopes exchangeCode)
                 hasRequiredScopes) w)) ;;;
  if negb hasRequiredScopes then
    Rollback (xdb i) ;;; ret (Return (Err "missing scopes"))
  else
  providerData <-
    lift (adapter_call (adapters.GetUserData (providerService i))
            EvGetUserData (adapters.xc_AccessToken exchangeCode)) ;;
  match providerData with
  | Err _ =>
      Rollback (xdb i) ;;;
      ret (Return (Err "fail to get external user data"))
  | Ok providerData =>
  if negb (adapters.IsEmailVerified providerData) then
    Rollback (xdb i) ;;; ret (Return (Err "unverified email"))
  else
  relatedAccounts <-
    lift (store_call (GetManyByProvider (AccountRepository serv))
            EvGetManyByProvider
            {| gmp_Db := xdb i;
               gmp_ProviderId := adapters.Id providerData;
               gmp_ProviderType := providerType i;
               gmp_Email := adapters.ud_Email providerData |}) ;;
  match relatedAccounts with
  | Err _ =>
      Rollback (xdb i) ;;;
      ret (Return (Err "fail to get related accounts"))
  | Ok relatedAccounts =>
  if (0 <? List.length relatedAccounts)%nat then
    match relateAccount (adapters.ud_Email providerData)
            (adapters.Id providerData) (providerType i)
            relatedAccounts with
    | Err e => Rollback (xdb i) ;;; ret (Return (Err e))
    | Ok accountId =>
        ret (ReturnGenAuthOutput
               {| db := None; accountId := accountId;
                  isFirstAccess := false; refresh := true |})
    end
  else
    result <-
      lift (store_call (Create (AccountRepository serv))
              EvCreateAccount
              {| ca_Db := xdb i;
                 ca_Email := adapters.ud_Email providerData;
                 ca_Phone := zero_phone;
                 ca_SignInProviders :=
                   [ {| sip_Id := adapters.Id providerData;
                        sip_Type := providerType i;
                        sip_AccessToken :=
                          adapters.xc_AccessToken exchangeCode;
                        sip_RefreshToken :=
                          Some (adapters.xc_RefreshToken exchangeCode);
                        sip_ExpiresAt :=
                          adapters.xc_ExpiresAt exchangeCode |} ] |}) ;;
    match result with
    | Err _ =>
        Rollback (xdb i) ;;; ret (Return (Err "fail to create account"))
    | Ok result =>
        ret (ReturnGenAuthOutput
               {| db := None; accountId := ca_Id result;
                  isFirstAccess := true; refresh := true |})
    end
  end end end.

Definition createFromExternal (sched : list thread)
    (i : createFromExternalProviderInput) (w : World)
  : option (outcome (result AuthOutput)) * World :=
  then_genAuthOutput sched (createFromExternal_steps i) w.

(** *** CreateFromGoogleProvider, CreateFromFacebookProvider
    (lines 195-225) *)

Definition CreateFromGoogleProvider_steps
    (i : CreateAccountFromExternalProviderInput) : M (tail AuthOutput) :=
  tx <- DbBegin ;;
  match tx with
  | Err _ => ret (Return (Err "fail to create transaction"))
  | Ok tx =>
      createFromExternal_steps
        {| xdb := Some tx;
           providerService := GoogleAdapter serv;
           providerType := "GOOGLE";
           code := cfx_Code i;
           originUrl := cfx_OriginUrl i |}
  end.

Definition CreateFromGoogleProvider (sched : list thread)
    (i : CreateAccountFromExternalProviderInput) (w : World)
  : option (outcome (result AuthOutput)) * World :=
  then_genAuthOutput sched (CreateFromGoogleProvider_steps i) w.

Definition CreateFromFacebookProvider_steps
    (i : CreateAccountFromExternalProviderInput) : M (tail AuthOutput) :=
  tx <- DbBegin ;;
  match tx with
  | Err _ => ret (Return (Err "fail to create transaction"))
  | Ok tx =>
      createFromExternal_steps
        {| xdb := Some tx;
           providerService := FacebookAdapter serv;
           providerType := "FACEBOOK";
           code := cfx_Code i;
           originUrl := cfx_OriginUrl i |}
  end.

Definition CreateFromFacebookProvider (sched : list thread)
    (i : CreateAccountFromExternalProviderInput) (w : World)
  : option (outcome (result AuthOutput)) * World :=
  then_genAuthOutput sched (CreateFromFacebookProvider_steps i) w.

(** *** CreateFromEmailProvider (lines 227-286)

    The function returns an [error]: [None] is [nil]. *)

Definition CreateFromEmailProvider (i : CreateAccountFromEmailInput)
  : M (option error) :=
  tx <- DbBegin ;;
  match tx with
  | Err _ => ret (Some "fail to create transaction")
  | Ok tx =>
  (* lines 263-285, reached from both branches of the [if] *)
  let upsert_and_send (accountId : string) (isFirstAccess : bool) :=
    magicLinkCode <-
      lift (store_call
              (MagicLinkCode_Upsert (MagicLinkCodeRepository serv))
              EvUpsertMagicLink
              {| uml_Db := Some tx; uml_AccountId := accountId;
                 uml_IsFirstAccess := isFirstAccess |}) ;;
    match magicLinkCode with
    | Err _ => Rollback (Some tx) ;;; ret (Some "fail to create account")
    | Ok magicLinkCode =>
    let msg :=
      {| adapters.sve_To := cfe_Email i;
         adapters.sve_Code := ml_Code magicLinkCode |} in
    let err :=
      adapters.SendVerificationCodeEmail (EmailAdapter serv) msg in
    lift (fun w =>
      (tt, emit (EvSendEmail msg
                   (match err with None => true | Some _ => false end))
             w)) ;;;
    match err with
    | Some _ => Rollback (Some tx) ;;; ret (Some "fail to send sms")
    | None => Commit (Some tx) ;;; ret None
    end end in
  existentAccount <-
    lift (store_call (GetByEmail (AccountRepository serv)) EvGetByEmail
            {| gbe_Db := Some tx; gbe_Email := cfe_Email i |}) ;;
  match existentAccount with
  | Err _ => Rollback (Some tx) ;;; ret (Some "fail to get account")
  | Ok None =>
      createdAccount <-
        lift (store_call (Create (AccountRepository serv))
                EvCreateAccount
                {| ca_Db := Some tx; ca_Email := cfe_Email i;
                   ca_Phone := zero_phone;
                   ca_SignInProviders := [] |}) ;;
      match createdAccount with
      | Err _ =>
          Rollback (Some tx) ;;; ret (Some "fail to create account")
      | Ok createdAccount => upsert_and_send (ca_Id createdAccount) true
      end
  | Ok (Some existentAccount) =>
      upsert_and_send (gbe_AccountId existentAccount) false
  end end.

(** *** CreateFromPhoneProvider (lines 288-348) *)

Definition CreateFromPhoneProvider (i : CreateAccountFromPhoneInput)
  : M (option error) :=
  tx <- DbBegin ;;
  match tx with
  | Err _ => ret (Some "fail to create transaction")
  | Ok tx =>
  (* lines 325-347, reached from both branches of the [if] *)
  let upsert_and_send (accountId : string) (isFirstAccess : bool) :=
    magicLinkCode <-
      lift (store_call
              (MagicLinkCode_Upsert (MagicLinkCodeRepository serv))
              EvUpsertMagicLink
              {| uml_Db := Some tx; uml_AccountId := accountId;
                 uml_IsFirstAccess := isFirstAccess |}) ;;
    match magicLinkCode with
    | Err _ => Rollback (Some tx) ;;; ret (Some "fail to create account")
    | Ok magicLinkCode =>
    let msg :=
      {| adapters.svs_To :=
           CountryCode (cfp_Phone i) ++ Number (cfp_Phone i);
         adapters.svs_Code := ml_Code magicLinkCode |} in
    let err := adapters.SendVerificationCodeSms (SmsAdapter serv) msg in
    lift (fun w =>
      (tt, emit (EvSendSms msg
                   (match err with None => true | Some _ => false end))
             w)) ;;;
    match err with
    | Some _ => Rollback (Some tx) ;;; ret (Some "fail to send sms")
    | None => Commit (Some tx) ;;; ret None
    end end in
  existentAccount <-
    lift (store_call (GetByPhone (AccountRepository serv)) EvGetByPhone
            {| gbp_Db := Some tx;
               gbp_CountryCode := CountryCode (cfp_Phone i);
               gbp_Number := Number (cfp_Phone i) |}) ;;
  match existentAccount with
  | Err _ => Rollback (Some tx) ;;; ret (Some "fail to get account")
  | Ok None =>
      createdAccount <-
        lift (store_call (Create (AccountRepository serv))
                EvCreateAccount
                {| ca_Db := Some tx; ca_Email := "";
                   ca_Phone := cfp_Phone i;
                   ca_SignInProviders := [] |}) ;;
      match createdAccount with
      | Err _ =>
          Rollback (Some tx) ;;; ret (Some "fail to create account")
      | Ok createdAccount => upsert_and_send (ca_Id createdAccount) true
      end
  | Ok (Some existentAccount) =>
      upsert_and_send (gbp_AccountId existentAccount) false
  end end.

(** *** ExchangeCode (lines 350-381) *)

Definition ExchangeCode_steps (i : ExchangeAccountCodeInput)
  : M (tail AuthOutput) :=
  tx <- DbBegin ;;
  match tx with
  | Err _ => ret (Return (Err "fail to create transaction"))
  | Ok tx =>
  magicLinkCode <-
    lift (store_call (MagicLinkCode_Get (MagicLinkCodeRepository serv))
            EvGetMagicLink
            {| gml_Db := Some tx; gml_AccountId := eac_AccountId i;
               gml_Code := eac_Code i |}) ;;
  match magicLinkCode with
  | Err _ => Rollback (Some tx) ;;; ret (Return (Err "fail to get account"))
  | Ok None =>
      Rollback (Some tx) ;;;
      ret (Return (Err "magic link code doesn't exist"))
  | Ok (Some magicLinkCode) =>
      Commit (Some tx) ;;;
      ret (ReturnGenAuthOutput
             {| db := Some tx; accountId := eac_AccountId i;
                isFirstAccess := IsFirstAccess magicLinkCode;
                refresh := true |})
  end end.

Definition ExchangeCode (sched : list thread)
    (i : ExchangeAccountCodeInput) (w : World)
  : option (outcome (result AuthOutput)) * World :=
  then_genAuthOutput sched (ExchangeCode_steps i) w.

(** *** RefreshToken (lines 383-419) *)

Definition RefreshToken (i : RefreshAccountTokenInput)
  : M (result RefreshAccountTokenOutput) :=
  tx <- DbBegin ;;
  match tx with
  | Err _ => ret (Err "fail to create transaction")
  | Ok tx =>
  refreshToken <-
    lift (store_call (RefreshToken_Get (RefreshTokenRepository serv))
            EvGetRefreshToken
            {| grt_Db := Some tx; grt_AccountId := rat_AccountId i;
               grt_RefreshToken := rat_RefreshToken i |}) ;;
  match refreshToken with
  | Err _ => Rollback (Some tx) ;;; ret (Err "fail to get account")
  | Ok refreshToken =>
  if negb refreshToken then
    Rollback (Some tx) ;;; ret (Err "refresh token doesn't exist")
  else
  accessToken <-
    lift (adapter_call (adapters.GenAccess (TokenAdapter serv))
            EvGenAccess
            {| adapters.ga_AccountId := rat_AccountId i |}) ;;
  match accessToken with
  | Err _ =>
      Rollback (Some tx) ;;; ret (Err "fail to generate access token")
  | Ok accessToken =>
      Commit (Some tx) ;;;
      ret (Ok {| rat_AccessToken := adapters.AccessToken accessToken;
                 rat_ExpiresAt := adapters.ExpiresAt accessToken |})
  end end end.

End Service.

Arguments g_init {Store} i w.
Arguments Build_World {Store} committed working status log.

(** ** An in-memory store and adapters, for concrete runs *)

(** Modelled from the spec: the implementations of the repositories are
    not among the sources.  The store keeps the entities of the data
    model: accounts (id, optional email, optional phone), sign-in
    identities (provider type, provider subject id, owning account, with
    the email of the account), refresh tokens (account id, token) and one
    magic-link code per account.  [create] makes the account and its
    identities in one call; [getManyByProvider] gives the identities with
    the same email or the same (provider type, subject id); [upsert]
    creates or overwrites the code of the account; the lookups
    ([getByEmail], [getByPhone], [exists], [get]) read only. *)
Module mem.

Record account := {
  acc_Id : string;
  acc_Email : string;
  acc_Phone : CreateAccountPhone
}.

Record Store := {
  accounts : list account;
  identities : list GetManyAccountsByProviderOutput;
  refresh_tokens : list (string * string);
  magic_codes : list (string * MagicLinkCode)
}.

Definition empty : Store :=
  {| accounts := []; identities := []; refresh_tokens := [];
     magic_codes := [] |}.

(** A fresh name: the prefix and as many ticks as there are rows. *)
Fixpoint ticks (n : nat) : string :=
  match n with
  | O => ""
  | S n' => "'" ++ ticks n'
  end.

Definition fresh (prefix : string) (n : nat) : string :=
  prefix ++ ticks n.

Definition phone_eqb (a b : CreateAccountPhone) : bool :=
  (CountryCode a =? CountryCode b) && (Number a =? Number b).

Definition Create (i : CreateAccountInput) (st : Store)
  : result CreateAccountOutput * Store :=
  let id := fresh "A" (List.length (accounts st)) in
  (Ok {| ca_Id := id |},
   {| accounts :=
        accounts st ++
        [ {| acc_Id := id; acc_Email := ca_Email i;
             acc_Phone := ca_Phone i |} ];
      identities :=
        identities st ++
        map (fun p =>
               {| AccountId := id; ProviderId := sip_Id p;
                  ProviderType := sip_Type p; Email := ca_Email i |})
            (ca_SignInProviders i);
      refresh_tokens := refresh_tokens st;
      magic_codes := magic_codes st |}).

Definition GetManyByProvider (i : GetManyAccountsByProviderInput)
    (st : Store)
  : result (list GetManyAccountsByProviderOutput) * Store :=
  (Ok (filter (fun v =>
                 same_email_as (gmp_Email i) v
                 || same_provider_as (gmp_ProviderId i)
                      (gmp_ProviderType i) v)
              (identities st)),
   st).

Definition GetByEmail (i : GetAccountByEmailInput) (st : Store)
  : result (option GetAccountByEmailOutput) * Store :=
  (Ok (match find (fun a => acc_Email a =? gbe_Email i) (accounts st) with
       | Some a =>
           Some {| gbe_AccountId := acc_Id a;
                   gbe_OutEmail := acc_Email a |}
       | None => None
       end),
   st).

Definition GetByPhone (i : GetAccountByPhoneInput) (st : Store)
  : result (option GetAccountByPhoneOutput) * Store :=
  (Ok (match find (fun a =>
                     phone_eqb (acc_Phone a)
                       {| CountryCode := gbp_CountryCode i;
                          Number := gbp_Number i |})
                  (accounts st) with
       | Some a =>
           Some {| gbp_AccountId := acc_Id a;
                   gbp_OutCountryCode := CountryCode (acc_Phone a);
                   gbp_OutNumber := Number (acc_Phone a) |}
       | None => None
       end),
   st).

Definition RefreshToken_Create (i : CreateRefreshTokenInput) (st : Store)
  : result CreateRefreshTokenOutput * Store :=
  let token := fresh "R" (List.length (refresh_tokens st)) in
  (Ok {| models.RefreshToken := token |},
   {| accounts := accounts st; identities := identities st;
      refresh_tokens := refresh_tokens st ++ [(crt_AccountId i, token)];
      magic_codes := magic_codes st |}).

Definition RefreshToken_Get (i : GetRefreshTokenInput) (st : Store)
  : result bool * Store :=
  (Ok (existsb (fun r =>
                  (fst r =? grt_AccountId i)
                  && (snd r =? grt_RefreshToken i))
               (refresh_tokens st)),
   st).

(** Modelled from the spec: [upsert(accountId, isFirstAccess) -> {code,
    isFirstAccess}], one code per account, the old one overwritten. *)
Definition MagicLinkCode_Upsert (i : UpsertMagicLinkRefreshTokenInput)
    (st : Store) : result MagicLinkCode * Store :=
  let c := {| ml_Code := fresh "C" (List.length (magic_codes st));
              IsFirstAccess := uml_IsFirstAccess i |} in
  (Ok c,
   {| accounts := accounts st; identities := identities st;
      refresh_tokens := refresh_tokens st;
      magic_codes :=
        filter (fun r => negb (fst r =? uml_AccountId i))
               (magic_codes st)
        ++ [(uml_AccountId i, c)] |}).

(** Modelled from the spec: [get(accountId, code) -> record|absent], a
    lookup; the store it gives back is the store it was given. *)
Definition MagicLinkCode_Get (i : GetMagicLinkRefreshTokenInput)
    (st : Store) : result (option MagicLinkCode) * Store :=
  (Ok (match find (fun r =>
                     (fst r =? gml_AccountId i)
                     && (ml_Code (snd r) =? gml_Code i))
                  (magic_codes st) with
       | Some r => Some (snd r)
       | None => None
       end),
   st).

Definition account_repository : models.AccountRepository Store :=
  {| models.Create := Create;
     models.GetManyByProvider := GetManyByProvider;
     models.GetByEmail := GetByEmail;
     models.GetByPhone := GetByPhone |}.

Definition refresh_token_repository
  : models.RefreshTokenRepository Store :=
  {| models.RefreshToken_Create := RefreshToken_Create;
     models.RefreshToken_Get := RefreshToken_Get |}.

Definition magic_link_code_repository
  : models.MagicLinkCodeRepository Store :=
  {| models.MagicLinkCode_Upsert := MagicLinkCode_Upsert;
     models.MagicLinkCode_Get := MagicLinkCode_Get |}.

(** A provider that signs in the user with the given subject id and
    verified email and grants the given scopes; [email] is required. *)
Definition provider (id email : string) (scopes : list string)
  : adapters.SignInProviderAdapter :=
  {| adapters.ExchangeCode := fun i =>
       Ok {| adapters.xc_AccessToken := "at:" ++ adapters.Code i;
             adapters.xc_RefreshToken := "rt:" ++ adapters.Code i;
             adapters.xc_ExpiresAt := 3600%Z;
             adapters.Scopes := scopes |};
     adapters.HasRequiredScopes := fun scopes =>
       existsb (String.eqb "email") scopes;
     adapters.GetUserData := fun _ =>
       Ok {| adapters.Id := id; adapters.ud_Email := email;
             adapters.IsEmailVerified := true |} |}.

(** A token adapter that mints, or fails, as told. *)
Definition tokens (works : bool) : adapters.TokenAdapter :=
  {| adapters.GenAccess := fun i =>
       if works
       then Ok {| adapters.AccessToken := "access:" ++ adapters.ga_AccountId i;
                  adapters.ExpiresAt := 900%Z |}
       else Err "signing key unavailable" |}.

Definition mailer (works : bool) : adapters.EmailAdapter :=
  {| adapters.SendVerificationCodeEmail := fun _ =>
       if works then None else Some "smtp down" |}.

Definition texter (works : bool) : adapters.SmsAdapter :=
  {| adapters.SendVerificationCodeSms := fun _ =>
       if works then None else Some "sms gateway down" |}.

(** A service over the in-memory store: Google signs in [(id, email)]
    with [scopes]; minting and sending work or fail as told. *)
Definition service (id email : string) (scopes : list string)
    (mint send : bool) : AccountService Store :=
  {| GoogleAdapter := provider id email scopes;
     FacebookAdapter := provider id email scopes;
     TokenAdapter := tokens mint;
     EmailAdapter := mailer send;
     SmsAdapter := texter send;
     Db := {| Begin := Ok tx_handle |};
     AccountRepository := account_repository;
     RefreshTokenRepository := refresh_token_repository;
     MagicLinkCodeRepository := magic_link_code_repository |}.

(** The world before an operation, on a given committed store. *)
Definition world (st : Store) : World Store :=
  {| committed := st; working := st; status := TxNone; log := [] |}.

End mem.

(** ** What the schedules of genAuthOutput are measured by *)

(** The calls on the transaction itself. *)
Definition tx_event (e : Event) : bool :=
  match e with
  | EvCommit | EvRollback => true
  | _ => false
  end.

Definition no_tx_event (evs : list Event) : bool :=
  forallb (fun e => negb (tx_event e)) evs.

(** The turns a schedule gives to the function itself. *)
Fixpoint main_turns (sched : list thread) : nat :=
  match sched with
  | [] => 0
  | Main :: sched' => S (main_turns sched')
  | Goroutine _ :: sched' => main_turns sched'
  end.

(** The program points up to [wg.Wait()], in the order of the source. *)
Definition pc_index (p : pc) : nat :=
  match p with
  | at_if_refresh => 0
  | at_add_refresh => 1
  | at_defer_refresh => 2
  | at_go_refresh => 3
  | at_add_access => 4
  | at_defer_access => 5
  | at_go_access => 6
  | at_wait => 7
  | _ => 8
  end.

(** What holds of every state of [genAuthOutput] started in the world
    [w0]: nothing returned, the transaction as it was, and a counter that
    is at least one from the second [wg.Add(1)] on. *)
Definition wait_inv {Store : Type} (w0 : World Store) (s : gstate Store)
  : Prop :=
  g_ret s = None
  /\ committed (g_world s) = committed w0
  /\ status (g_world s) = status w0
  /\ (exists evs, log (g_world s) = (log w0 ++ evs)%list
                  /\ no_tx_event evs = true)
  /\ match g_pc s with
     | at_if_refresh | at_add_refresh => g_counter s = 0%Z
     | at_defer_refresh | at_go_refresh => g_counter s = 1%Z
     | at_add_access => (0 <= g_counter s)%Z
     | at_defer_access | at_go_access | at_wait => (1 <= g_counter s)%Z
     | _ => False
     end.

(** ** What the log of a passwordless request is measured by *)

(** The outcome an event records: whether the call succeeded. *)
Definition event_ok (e : Event) : bool :=
  match e with
  | EvBegin ok => ok
  | EvCommit | EvRollback => true
  | EvExchangeCode _ ok => ok
  | EvHasRequiredScopes _ has => has
  | EvGetUserData _ ok => ok
  | EvGetManyByProvider _ ok => ok
  | EvCreateAccount _ ok => ok
  | EvGetByEmail _ ok => ok
  | EvGetByPhone _ ok => ok
  | EvUpsertMagicLink _ ok => ok
  | EvGetMagicLink _ ok => ok
  | EvCreateRefreshToken _ ok => ok
  | EvGetRefreshToken _ ok => ok
  | EvGenAccess _ ok => ok
  | EvSendEmail _ ok => ok
  | EvSendSms _ ok => ok
  end.

Definition all_ok (evs : list Event) : bool := forallb event_ok evs.

Definition is_commit (e : Event) : bool :=
  match e with EvCommit => true | _ => false end.

Definition is_rollback (e : Event) : bool :=
  match e with EvRollback => true | _ => false end.

Definition is_create (e : Event) : bool :=
  match e with EvCreateAccount _ _ => true | _ => false end.

(** How a passwordless request that started in [w] and made the calls
    [evs] has failed: it returned an error, some call failed, no commit
    was called, the committed store is the one before the request, and
    the transaction, if one was opened, was rolled back last. *)
Definition request_failed {Store : Type} (w : World Store)
    (res : outcome (option error) * World Store) (evs : list Event)
  : Prop :=
  (exists e, fst res = Val (Some e))
  /\ committed (snd res) = committed w
  /\ existsb is_commit evs = false
  /\ all_ok evs = false
  /\ (evs = [EvBegin false]
      \/ status (snd res) = TxRolledBack
         /\ working (snd res) = committed w
         /\ last evs EvCommit = EvRollback).

(** How an email request that started in [w] and made the calls [evs] has
    committed: it returned [nil]; the transaction was opened; the lookup
    by the email answered; when it answered that the account was absent
    the creation of an account with the email alone succeeded, and the
    account of the request is the new one, on its first access, and
    otherwise it is the account found and nothing was created; the upsert
    of a code for that account succeeded; the dispatch of that code to the
    email succeeded; these were the calls, in this order, followed by the
    commit; and the committed store is the store the upsert left. *)
Definition email_request_committed {Store : Type}
    (serv : AccountService Store) (i : CreateAccountFromEmailInput)
    (w : World Store) (res : outcome (option error) * World Store)
    (evs : list Event) : Prop :=
  fst res = Val None
  /\ status (snd res) = TxCommitted
  /\ working (snd res) = committed (snd res)
  /\ all_ok evs = true
  /\ exists tx existent st,
       let lookup := {| gbe_Db := Some tx; gbe_Email := cfe_Email i |} in
       let account :=
         {| ca_Db := Some tx; ca_Email := cfe_Email i;
            ca_Phone := zero_phone; ca_SignInProviders := [] |} in
       Begin (Db serv) = Ok tx
       /\ GetByEmail (AccountRepository serv) lookup (committed w)
          = (Ok existent, st)
       /\ exists accountId isFirstAccess st1 creation c,
            match existent with
            | Some a =>
                accountId = gbe_AccountId a /\ isFirstAccess = false
                /\ st1 = st /\ creation = []
            | None =>
                exists created,
                  Create (AccountRepository serv) account st
                  = (Ok created, st1)
                  /\ accountId = ca_Id created /\ isFirstAccess = true
                  /\ creation = [EvCreateAccount account true]
            end
            /\ let upsert :=
                 {| uml_Db := Some tx; uml_AccountId := accountId;
                    uml_IsFirstAccess := isFirstAccess |} in
               let msg :=
                 {| adapters.sve_To := cfe_Email i;
                    adapters.sve_Code := ml_Code c |} in
               MagicLinkCode_Upsert (MagicLinkCodeRepository serv)
                 upsert st1 = (Ok c, committed (snd res))
               /\ adapters.SendVerificationCodeEmail (EmailAdapter serv)
                    msg = None
               /\ evs = ([EvBegin true; EvGetByEmail lookup true]
                         ++ creation
                         ++ [EvUpsertMagicLink upsert true;
                             EvSendEmail msg true; EvCommit])%list.

(** The same for a phone request: the lookup is by country code and
    number, the account created has the phone alone, and the code goes to
    the country code followed by the number. *)
Definition phone_request_committed {Store : Type}
    (serv : AccountService Store) (i : CreateAccountFromPhoneInput)
    (w : World Store) (res : outcome (option error) * World Store)
    (evs : list Event) : Prop :=
  fst res = Val None
  /\ status (snd res) = TxCommitted
  /\ working (snd res) = committed (snd res)
  /\ all_ok evs = true
  /\ exists tx existent st,
       let lookup :=
         {| gbp_Db := Some tx;
            gbp_CountryCode := CountryCode (cfp_Phone i);
            gbp_Number := Number (cfp_Phone i) |} in
       let account :=
         {| ca_Db := Some tx; ca_Email := "";
            ca_Phone := cfp_Phone i; ca_SignInProviders := [] |} in
       Begin (Db serv) = Ok tx
       /\ GetByPhone (AccountRepository serv) lookup (committed w)
          = (Ok existent, st)
       /\ exists accountId isFirstAccess st1 creation c,
            match existent with
            | Some a =>
                accountId = gbp_AccountId a /\ isFirstAccess = false
                /\ st1 = st /\ creation = []
            | None =>
                exists created,
                  Create (AccountRepository serv) account st
                  = (Ok created, st1)
                  /\ accountId = ca_Id created /\ isFirstAccess = true
                  /\ creation = [EvCreateAccount account true]
            end
            /\ let upsert :=
                 {| uml_Db := Some tx; uml_AccountId := accountId;
                    uml_IsFirstAccess := isFirstAccess |} in
               let msg :=
                 {| adapters.svs_To :=
                      CountryCode (cfp_Phone i) ++ Number (cfp_Phone i);
                    adapters.svs_Code := ml_Code c |} in
               MagicLinkCode_Upsert (MagicLinkCodeRepository serv)
                 upsert st1 = (Ok c, committed (snd res))
               /\ adapters.SendVerificationCodeSms (SmsAdapter serv)
                    msg = None
               /\ evs = ([EvBegin true; EvGetByPhone lookup true]
                         ++ creation
                         ++ [EvUpsertMagicLink upsert true;
                             EvSendSms msg true; EvCommit])%list.

(** A passwordless request has committed as above or failed as above. *)
Definition email_request_settled {Store : Type}
    (serv : AccountService Store) (i : CreateAccountFromEmailInput)
    (w : World Store) : Prop :=
  exists evs,
    log (snd (CreateFromEmailProvider serv i w)) = (log w ++ evs)%list
    /\ (email_request_committed serv i w
          (CreateFromEmailProvider serv i w) evs
        \/ request_failed w (CreateFromEmailProvider serv i w) evs).

Definition phone_request_settled {Store : Type}
    (serv : AccountService Store) (i : CreateAccountFromPhoneInput)
    (w : World Store) : Prop :=
  exists evs,
    log (snd (CreateFromPhoneProvider serv i w)) = (log w ++ evs)%list
    /\ (phone_request_committed serv i w
          (CreateFromPhoneProvider serv i w) evs
        \/ request_failed w (CreateFromPhoneProvider serv i w) evs).

(** ** The order of the steps of an external sign-in *)



(** How [createFromExternal] stands at its last statement or at an earlier
    return: it returned an error after a rollback, the committed store
    untouched, or it is about to call [genAuthOutput], for which it sets
    no transaction and asks for a refresh token. *)
Definition resolved_or_rolled_back {Store : Type} (w : World Store)
    (res : outcome (tail AuthOutput) * World Store) : Prop :=
  committed (snd res) = committed w
  /\ ((exists e, fst res = Val (Return (Err e)))
      /\ existsb is_rollback (log (snd res)) = true
      \/ (exists gi, fst res = Val (ReturnGenAuthOutput gi)
                     /\ db gi = None /\ refresh gi = true)
         /\ status (snd res) = status w).


(** ** Kinds of calls *)

(** The calls that issue credentials. *)
Definition is_refresh_create (e : Event) : bool :=
  match e with EvCreateRefreshToken _ _ => true | _ => false end.

Definition is_gen_access (e : Event) : bool :=
  match e with EvGenAccess _ _ => true | _ => false end.

Definition is_issuance (e : Event) : bool :=
  is_refresh_create e || is_gen_access e.

(** The calls on the account store. *)
Definition is_account_store_call (e : Event) : bool :=
  match e with
  | EvGetManyByProvider _ _ | EvCreateAccount _ _
  | EvGetByEmail _ _ | EvGetByPhone _ _ => true
  | _ => false
  end.

(** The calls a [RefreshToken] operation may make. *)
Definition is_refresh_flow_call (e : Event) : bool :=
  match e with
  | EvBegin _ | EvGetRefreshToken _ _ | EvGenAccess _ _
  | EvCommit | EvRollback => true
  | _ => false
  end.

(** The calls a passwordless request may make. *)
Definition is_passwordless_call (e : Event) : bool :=
  match e with
  | EvBegin _ | EvGetByEmail _ _ | EvGetByPhone _ _
  | EvCreateAccount _ _ | EvUpsertMagicLink _ _
  | EvSendEmail _ _ | EvSendSms _ _ | EvCommit | EvRollback => true
  | _ => false
  end.

Definition count_calls (f : Event -> bool) (evs : list Event) : nat :=
  List.length (filter f evs).

(** An identity lookup or an account creation carries the provider type
    [t] and nothing else. *)
Definition typed_as (t : string) (e : Event) : bool :=
  match e with
  | EvGetManyByProvider q _ => gmp_ProviderType q =? t
  | EvCreateAccount a _ =>
      forallb (fun p => sip_Type p =? t) (ca_SignInProviders a)
      && Nat.eqb (List.length (ca_SignInProviders a)) 1
  | _ => true
  end.

Definition b2n (b : bool) : nat := if b then 1 else 0.

(** What holds of the goroutines of [genAuthOutput] at every state, with
    [evs] the calls made so far: each call is made by its goroutine, once
    the goroutine is started, and a goroutine that has run is not started
    again; the counter and the deferred calls are those of the program
    points passed, and the points of the [if i.refresh] block are passed
    only when [i.refresh] holds. *)
Definition calls_inv {Store : Type} (s : gstate Store) (evs : list Event)
  : Prop :=
  forallb is_issuance evs = true
  /\ (count_calls is_refresh_create evs
      + b2n (is_spawned GoCreateRefreshToken s)
      = (if Nat.leb 4 (pc_index (g_pc s))
         then b2n (refresh (g_input s)) else 0))%nat
  /\ (count_calls is_gen_access evs + b2n (is_spawned GoGenAccess s)
      = (if Nat.leb 7 (pc_index (g_pc s)) then 1 else 0))%nat
  /\ g_counter s
     = ((if Nat.leb 2 (pc_index (g_pc s))
         then (if refresh (g_input s) then 1 else 0) else 0)
        + (if Nat.leb 5 (pc_index (g_pc s)) then 1 else 0))%Z
  /\ g_deferred s
     = ((if Nat.leb 3 (pc_index (g_pc s))
         then b2n (refresh (g_input s)) else 0)
        + (if Nat.leb 6 (pc_index (g_pc s)) then 1 else 0))%nat
  /\ implb (Nat.leb 1 (pc_index (g_pc s))
            && Nat.leb (pc_index (g_pc s)) 3)
           (refresh (g_input s)) = true
  /\ (pc_index (g_pc s) <= 7)%nat.

(** ** Scenarios *)

Module scenario.

(** Two identities of two accounts: one signed up with Facebook under
    a@x.com, one with Google (subject g1) under b@x.com. *)
Definition facebook_A1 : GetManyAccountsByProviderOutput :=
  {| AccountId := "A1"; ProviderId := "f1";
     ProviderType := "FACEBOOK"; Email := "a@x.com" |}.

Definition google_A2 : GetManyAccountsByProviderOutput :=
  {| AccountId := "A2"; ProviderId := "g1";
     ProviderType := "GOOGLE"; Email := "b@x.com" |}.

(** Services over the in-memory store: all adapters working, the token
    adapter failing, the notification adapters failing, the provider
    granting no [email] scope. *)
Definition service_ok : AccountService mem.Store :=
  mem.service "g1" "a@x.com" ["email"] true true.

Definition service_no_mint : AccountService mem.Store :=
  mem.service "g1" "a@x.com" ["email"] false true.

Definition service_no_send : AccountService mem.Store :=
  mem.service "g1" "a@x.com" ["email"] true false.

Definition service_no_scope : AccountService mem.Store :=
  mem.service "g1" "a@x.com" ["profile"] true true.

(** A service whose refresh-token store fails to create. *)
Definition service_no_refresh : AccountService mem.Store :=
  {| GoogleAdapter := GoogleAdapter service_ok;
     FacebookAdapter := FacebookAdapter service_ok;
     TokenAdapter := TokenAdapter service_ok;
     EmailAdapter := EmailAdapter service_ok;
     SmsAdapter := SmsAdapter service_ok;
     Db := Db service_ok;
     AccountRepository := mem.account_repository;
     RefreshTokenRepository :=
       {| models.RefreshToken_Create := fun _ st => (Err "insert failed", st);
          models.RefreshToken_Get := mem.RefreshToken_Get |};
     MagicLinkCodeRepository := mem.magic_link_code_repository |}.

(** A service whose Facebook adapter reports an email that the provider
    has not verified. *)
Definition service_unverified : AccountService mem.Store :=
  {| GoogleAdapter := GoogleAdapter service_ok;
     FacebookAdapter :=
       {| adapters.ExchangeCode :=
            adapters.ExchangeCode (FacebookAdapter service_ok);
          adapters.HasRequiredScopes :=
            adapters.HasRequiredScopes (FacebookAdapter service_ok);
          adapters.GetUserData := fun _ =>
            Ok {| adapters.Id := "f1"; adapters.ud_Email := "a@x.com";
                  adapters.IsEmailVerified := false |} |};
     TokenAdapter := TokenAdapter service_ok;
     EmailAdapter := EmailAdapter service_ok;
     SmsAdapter := SmsAdapter service_ok;
     Db := Db service_ok;
     AccountRepository := mem.account_repository;
     RefreshTokenRepository := mem.refresh_token_repository;
     MagicLinkCodeRepository := mem.magic_link_code_repository |}.

(** A service whose database cannot open a transaction. *)
Definition service_db_down : AccountService mem.Store :=
  {| GoogleAdapter := GoogleAdapter service_ok;
     FacebookAdapter := FacebookAdapter service_ok;
     TokenAdapter := TokenAdapter service_ok;
     EmailAdapter := EmailAdapter service_ok;
     SmsAdapter := SmsAdapter service_ok;
     Db := {| Begin := Err "connection refused" |};
     AccountRepository := mem.account_repository;
     RefreshTokenRepository := mem.refresh_token_repository;
     MagicLinkCodeRepository := mem.magic_link_code_repository |}.

(** A schedule that runs each goroutine as soon as it is started and gives
    the function more turns than it can use. *)
Definition eager_schedule : list thread :=
  [Main; Main; Main; Main; Goroutine GoCreateRefreshToken;
   Main; Main; Main; Goroutine GoGenAccess; Main; Main; Main].

(** A world with an open transaction on the empty store. *)
Definition open_world : World mem.Store :=
  {| committed := mem.empty; working := mem.empty;
     status := TxOpen; log := [EvBegin true] |}.

Definition issue_for_A : genAuthOutputInput :=
  {| db := Some tx_handle; accountId := "A";
     isFirstAccess := false; refresh := true |}.

(** The Google sign-in request, and what [CreateFromGoogleProvider] hands
    to [createFromExternal] for it. *)
Definition sign_in : CreateAccountFromExternalProviderInput :=
  {| cfx_Code := "c"; cfx_OriginUrl := "o" |}.

Definition google_sign_in : createFromExternalProviderInput :=
  {| xdb := Some tx_handle;
     providerService := GoogleAdapter service_ok;
     providerType := "GOOGLE"; code := "c"; originUrl := "o" |}.

(** The store after [createFromEmail("a@x.com")] on a fresh store: the
    account [A] with the magic-link code [C]. *)
Definition store_with_code : mem.Store :=
  committed
    (snd (CreateFromEmailProvider service_ok {| cfe_Email := "a@x.com" |}
            (mem.world mem.empty))).

(** A phone request, and the store after it on a fresh store: the account
    [A] with that phone and the code [C]. *)
Definition phone_request : CreateAccountFromPhoneInput :=
  {| cfp_Phone := {| CountryCode := "+55"; Number := "11999990000" |} |}.

Definition store_with_phone : mem.Store :=
  committed
    (snd (CreateFromPhoneProvider service_ok phone_request
            (mem.world mem.empty))).

Definition exchange_A_C : ExchangeAccountCodeInput :=
  {| eac_AccountId := "A"; eac_Code := "C" |}.

(** The store with both identities of the first scenario: the accounts
    [A] (Facebook f1, a@x.com) and [A'] (Google g1, b@x.com). *)
Definition store_with_two_accounts : mem.Store :=
  snd (mem.Create
         {| ca_Db := Some tx_handle; ca_Email := "b@x.com";
            ca_Phone := zero_phone;
            ca_SignInProviders :=
              [ {| sip_Id := "g1"; sip_Type := "GOOGLE";
                   sip_AccessToken := "at"; sip_RefreshToken := None;
                   sip_ExpiresAt := 3600%Z |} ] |}
         (snd (mem.Create
                 {| ca_Db := Some tx_handle; ca_Email := "a@x.com";
                    ca_Phone := zero_phone;
                    ca_SignInProviders :=
                      [ {| sip_Id := "f1"; sip_Type := "FACEBOOK";
                           sip_AccessToken := "at";
                           sip_RefreshToken := None;
                           sip_ExpiresAt := 3600%Z |} ] |}
                 mem.empty))).

End scenario.

(** * Properties *)

Open Scope list_scope.

(** Unfolds the monad and the calls of a sequential flow. *)
Ltac run_calls :=
  unfold bind, lift, ret, panic, DbBegin, Rollback, Commit, store_call,
    adapter_call, emit, do_rollback, do_commit; simpl.

(** ** The scan and the account it picks *)

Section Scan.

Variables email providerId providerType : string.

(** With both pointers set, the loop ends in its first iteration. *)
Lemma scanRelated_not_nil (a b v : GetManyAccountsByProviderOutput)
    (rest : list GetManyAccountsByProviderOutput) :
  scanRelated email providerId providerType (Some a) (Some b) (v :: rest)
  = (Some (if same_email_as email v then v else a),
     Some (if same_provider_as providerId providerType v then v else b)).
Proof.
  simpl.
  destruct (same_email_as email v),
           (same_provider_as providerId providerType v); reflexivity.
Qed.

Lemma scanVisited_not_nil (a b v : GetManyAccountsByProviderOutput)
    (rest : list GetManyAccountsByProviderOutput) :
  scanVisited email providerId providerType (Some a) (Some b) (v :: rest)
  = 1%nat.
Proof.
  simpl.
  destruct (same_email_as email v),
           (same_provider_as providerId providerType v); reflexivity.
Qed.

(** Neither pointer is ever [nil] after the scan. *)
Lemma scan_not_nil (l : list GetManyAccountsByProviderOutput) :
  exists a b, scan email providerId providerType l = (Some a, Some b).
Proof.
  destruct l as [|v rest].
  - exists zero_related, zero_related. reflexivity.
  - unfold scan, new_related. rewrite scanRelated_not_nil. eauto.
Qed.

(** The branch decides on the first element alone. *)
Lemma relateAccount_cons (v : GetManyAccountsByProviderOutput)
    (rest : list GetManyAccountsByProviderOutput) :
  relateAccount email providerId providerType (v :: rest)
  = if same_provider_as providerId providerType v
    then (if AccountId v =? "" then Err "fail to relate account"
          else Ok (AccountId v))
    else Err "fail to relate account".
Proof.
  unfold relateAccount, scan, new_related.
  rewrite scanRelated_not_nil.
  unfold pickAccount.
  destruct (same_email_as email v),
           (same_provider_as providerId providerType v); reflexivity.
Qed.

Lemma same_provider_as_type (v : GetManyAccountsByProviderOutput) :
  same_provider_as providerId providerType v = true ->
  ProviderType v = providerType.
Proof.
  unfold same_provider_as. intros H.
  apply andb_true_iff in H. destruct H as [_ H].
  now apply String.eqb_eq.
Qed.

End Scan.

(** C9: on every non-empty candidate list the scan reads the first
    element only, whether or not a same-email and a same-provider match
    have been found by then, and the two pointers hold that element where
    it matches and the zero record where it does not: the loop does not
    wait for both matches, and a match further down the list is never
    kept. *)
Theorem scan_stops_after_first_candidate
    (email providerId providerType : string)
    (v : GetManyAccountsByProviderOutput)
    (rest : list GetManyAccountsByProviderOutput) :
  scanVisited email providerId providerType new_related new_related
    (v :: rest) = 1%nat
  /\ scan email providerId providerType (v :: rest)
     = (Some (if same_email_as email v then v else zero_related),
        Some (if same_provider_as providerId providerType v
              then v else zero_related)).
Proof.
  split.
  - apply scanVisited_not_nil.
  - apply scanRelated_not_nil.
Qed.

(** The scan of C9 on a list whose first element matches by email only and
    whose second matches by provider only: it stops with one match found
    and never reads the same-provider match. *)
Example scan_misses_later_provider_match :
  scan "a@x.com" "g1" "GOOGLE" [scenario.facebook_A1; scenario.google_A2]
  = (Some scenario.facebook_A1, Some zero_related)
  /\ scanVisited "a@x.com" "g1" "GOOGLE" new_related new_related
       [scenario.facebook_A1; scenario.google_A2] = 1%nat
  /\ same_provider_as "g1" "GOOGLE" scenario.google_A2 = true.
Proof. repeat split. Qed.

(** C1: when the first candidate is not the identity of the event's
    (provider type, subject id), the resolution fails with "fail to relate
    account" even though that identity is further down the candidate
    list: its account id is not returned. *)
Theorem relateAccount_misses_same_provider_behind_first
    (email providerId providerType : string)
    (v p : GetManyAccountsByProviderOutput)
    (rest : list GetManyAccountsByProviderOutput)
    (Hfirst : same_provider_as providerId providerType v = false)
    (Hin : In p rest)
    (Hsame : same_provider_as providerId providerType p = true) :
  relateAccount email providerId providerType (v :: rest)
  = Err "fail to relate account".
Proof.
  rewrite relateAccount_cons.
  destruct (same_provider_as providerId providerType v) eqn:E.
  - discriminate.
  - reflexivity.
Qed.

(** The Google user g1, whose provider email is now a@x.com, has an
    identity in the candidate list (account A2), behind the Facebook
    identity that holds a@x.com. *)
Lemma relateAccount_misses_same_provider_behind_first_witness :
  relateAccount "a@x.com" "g1" "GOOGLE"
    [scenario.facebook_A1; scenario.google_A2]
  = Err "fail to relate account".
Proof.
  apply (@relateAccount_misses_same_provider_behind_first
           "a@x.com" "g1" "GOOGLE"
           scenario.facebook_A1 scenario.google_A2 [scenario.google_A2]).
  - reflexivity.
  - left. reflexivity.
  - reflexivity.
Defined.

(** C2: when the candidate list holds an identity with the email of the
    event under another provider type and none under the provider type of
    the event, the resolution fails with "fail to relate account": the
    same-email identity is never linked. *)
Theorem relateAccount_never_links_by_email
    (email providerId providerType : string)
    (l : list GetManyAccountsByProviderOutput)
    (Hemail : exists v, In v l /\ Email v = email
                        /\ ProviderType v <> providerType)
    (Hnone : forall v, In v l -> ProviderType v <> providerType) :
  relateAccount email providerId providerType l
  = Err "fail to relate account".
Proof.
  destruct l as [|v rest].
  - destruct Hemail as [v [[] _]].
  - rewrite relateAccount_cons.
    destruct (same_provider_as providerId providerType v) eqn:E;
      [|reflexivity].
    apply same_provider_as_type in E.
    exfalso. apply (Hnone v); [left; reflexivity | exact E].
Qed.

Lemma relateAccount_never_links_by_email_witness :
  relateAccount "a@x.com" "g1" "GOOGLE" [scenario.facebook_A1]
  = Err "fail to relate account".
Proof.
  apply relateAccount_never_links_by_email.
  - exists scenario.facebook_A1.
    split; [left; reflexivity|].
    split; [reflexivity | discriminate].
  - intros v [<-|[]]. discriminate.
Defined.

(** ** genAuthOutput: the join that never joins *)

Section GenAuthOutput.

Context {Store : Type} (serv : AccountService Store).

Lemma no_tx_event_snoc (evs : list Event) (e : Event) :
  no_tx_event evs = true -> tx_event e = false ->
  no_tx_event (evs ++ [e]) = true.
Proof.
  unfold no_tx_event. intros H He.
  rewrite forallb_app, H. simpl. now rewrite He.
Qed.

Lemma wait_inv_init (i : genAuthOutputInput) (w0 : World Store) :
  wait_inv w0 (g_init i w0).
Proof.
  unfold wait_inv, g_init; simpl.
  repeat split; try reflexivity.
  exists []. now rewrite app_nil_r.
Qed.

(** A goroutine leaves the counter, the program point and the state of
    the transaction alone. *)
Lemma wait_inv_goroutine (w0 : World Store) (g : goroutine)
    (s : gstate Store) :
  wait_inv w0 s -> wait_inv w0 (run_goroutine serv g s).
Proof.
  intros (Hret & Hc & Hst & (evs & Hlog & Hevs) & Hpc).
  destruct g; unfold run_goroutine.
  - unfold store_call.
    destruct (RefreshToken_Create _ _ _) as [r st].
    unfold wait_inv; simpl.
    repeat split; try assumption.
    exists (evs ++ [EvCreateRefreshToken
                      {| crt_Db := db (g_input s);
                         crt_AccountId := accountId (g_input s) |}
                      (is_ok r)]).
    rewrite Hlog, app_assoc. split; [reflexivity|].
    now apply no_tx_event_snoc.
  - unfold adapter_call, emit.
    unfold wait_inv; simpl.
    repeat split; try assumption.
    eexists (evs ++ [_]).
    rewrite Hlog, app_assoc. split; [reflexivity|].
    now apply no_tx_event_snoc.
Qed.

(** Every step keeps the invariant: the only step that leaves
    [wg.Wait()] needs a counter of zero. *)
Lemma wait_inv_step (w0 : World Store) (t : thread)
    (s s' : gstate Store) :
  wait_inv w0 s -> step serv t s = Some s' -> wait_inv w0 s'.
Proof.
  intros Hinv Hstep.
  destruct t as [|g].
  - destruct Hinv as (Hret & Hc & Hst & Hlog & Hpc).
    unfold step in Hstep.
    destruct (g_pc s) eqn:Epc; try contradiction;
      try (injection Hstep as <-; unfold wait_inv; simpl;
           repeat split; try assumption; try lia;
           destruct (refresh (g_input s)); simpl; lia).
    destruct (g_counter s =? 0)%Z eqn:E0; [|discriminate].
    apply Z.eqb_eq in E0. lia.
  - simpl in Hstep.
    destruct (is_spawned g s); [|discriminate].
    injection Hstep as <-. now apply wait_inv_goroutine.
Qed.

Lemma wait_inv_reachable (i : genAuthOutputInput) (w0 : World Store)
    (s : gstate Store) :
  reachable serv (g_init i w0) s -> wait_inv w0 s.
Proof.
  induction 1 as [|t s s' _ IH Hstep].
  - apply wait_inv_init.
  - eapply wait_inv_step; eassumption.
Qed.

Lemma run_reachable (sched : list thread) (s0 s : gstate Store) :
  reachable serv s0 s -> reachable serv s0 (run serv sched s).
Proof.
  revert s. induction sched as [|t sched IH]; intros s Hs; simpl.
  - exact Hs.
  - apply IH. destruct (step serv t s) as [s'|] eqn:E.
    + eapply reach_step; eassumption.
    + exact Hs.
Qed.

Lemma wait_inv_run (sched : list thread) (i : genAuthOutputInput)
    (w0 : World Store) :
  wait_inv w0 (run serv sched (g_init i w0)).
Proof.
  apply wait_inv_reachable with (i := i).
  apply run_reachable. constructor.
Qed.

End GenAuthOutput.

Section GenAuthOutputBlocks.

Context {Store : Type} (serv : AccountService Store).

(** Up to [wg.Wait()] the function can always move, and moves forward. *)
Lemma main_moves_forward (w0 : World Store) (s : gstate Store) :
  wait_inv w0 s -> (pc_index (g_pc s) < 7)%nat ->
  exists s', step serv Main s = Some s'
             /\ (pc_index (g_pc s) < pc_index (g_pc s'))%nat.
Proof.
  intros (_ & _ & _ & _ & Hpc) Hlt.
  unfold step.
  destruct (g_pc s); simpl in Hlt; try lia; try contradiction;
    eexists; (split; [reflexivity|]); simpl; try lia.
  destruct (refresh (g_input s)); simpl; lia.
Qed.

Lemma goroutine_keeps_pc (g : goroutine) (s s' : gstate Store) :
  step serv (Goroutine g) s = Some s' -> g_pc s' = g_pc s.
Proof.
  simpl. destruct (is_spawned g s); [|discriminate].
  intros [= <-]. destruct g; unfold run_goroutine.
  - destruct (store_call _ _ _ _); reflexivity.
  - destruct (adapter_call _ _ _ _); reflexivity.
Qed.

Lemma wait_inv_pc_index (w0 : World Store) (s : gstate Store) :
  wait_inv w0 s -> (pc_index (g_pc s) <= 7)%nat.
Proof.
  intros (_ & _ & _ & _ & Hpc).
  destruct (g_pc s); simpl; try lia; contradiction.
Qed.

Lemma pc_index_wait (p : pc) : pc_index p = 7%nat -> p = at_wait.
Proof. destruct p; simpl; intros H; try discriminate; reflexivity. Qed.

(** Each turn of the function takes it one program point further, until
    it stands at [wg.Wait()]. *)
Lemma run_progress (w0 : World Store) (sched : list thread)
    (s : gstate Store) :
  wait_inv w0 s ->
  (Nat.min 7 (pc_index (g_pc s) + main_turns sched)
   <= pc_index (g_pc (run serv sched s)))%nat.
Proof.
  revert s. induction sched as [|t sched IH]; intros s Hinv.
  - cbn [run main_turns]. lia.
  - cbn [run].
    destruct t as [|g].
    + cbn [main_turns].
      destruct (Nat.lt_ge_cases (pc_index (g_pc s)) 7) as [Hlt|Hge].
      * destruct (main_moves_forward Hinv Hlt) as (s' & Hs' & Hidx).
        rewrite Hs'.
        assert (Hinv' : wait_inv w0 s')
          by (eapply wait_inv_step; eassumption).
        specialize (IH s' Hinv'). lia.
      * assert (Hinv' :
            wait_inv w0 (match step serv Main s with
                         | Some s' => s' | None => s end)).
        { destruct (step serv Main s) eqn:E; [|exact Hinv].
          eapply wait_inv_step; eassumption. }
        specialize (IH _ Hinv').
        pose proof (wait_inv_pc_index Hinv) as Hle.
        assert (Hsame :
            (pc_index (g_pc s)
             <= pc_index (g_pc (match step serv Main s with
                                | Some s' => s' | None => s end)))%nat).
        { destruct Hinv as (_ & _ & _ & _ & Hpc).
          assert (Hw : g_pc s = at_wait) by (apply pc_index_wait; lia).
          unfold step. rewrite Hw in *.
          destruct (g_counter s =? 0)%Z eqn:E0.
          - apply Z.eqb_eq in E0. lia.
          - rewrite Hw. lia. }
        lia.
    + cbn [main_turns].
      destruct (step serv (Goroutine g) s) as [s'|] eqn:E.
      * assert (Hinv' : wait_inv w0 s')
          by (eapply wait_inv_step; eassumption).
        specialize (IH s' Hinv').
        rewrite (goroutine_keeps_pc _ _ E) in IH. exact IH.
      * apply IH, Hinv.
Qed.

End GenAuthOutputBlocks.

(** C3: under every schedule [genAuthOutput] returns neither the pair of
    credentials nor the issuance error, and it leaves the transaction as it
    found it, neither committed nor rolled back: the log gains no commit
    and no rollback, and the committed store is the one it started from. *)
Theorem genAuthOutput_settles_nothing
    (Store : Type) (serv : AccountService Store)
    (sched : list thread) (i : genAuthOutputInput) (w : World Store) :
  fst (genAuthOutput serv sched i w) = None
  /\ status (snd (genAuthOutput serv sched i w)) = status w
  /\ committed (snd (genAuthOutput serv sched i w)) = committed w
  /\ exists evs,
       log (snd (genAuthOutput serv sched i w)) = log w ++ evs
       /\ no_tx_event evs = true.
Proof.
  unfold genAuthOutput; simpl.
  destruct (wait_inv_run serv sched i w) as (Hret & Hc & Hst & Hlog & _).
  auto.
Qed.

(** C4: once the function has had the seven turns that take it to
    [wg.Wait()], under every schedule it stands there with the counter at
    one or more, it cannot move, and it has not returned: the deferred
    [wg.Done()] calls wait for a return that waits for them. *)
Theorem genAuthOutput_blocks_in_Wait
    (Store : Type) (serv : AccountService Store)
    (sched : list thread) (i : genAuthOutputInput) (w : World Store)
    (Hturns : (7 <= main_turns sched)%nat) :
  g_pc (run serv sched (g_init i w)) = at_wait
  /\ (1 <= g_counter (run serv sched (g_init i w)))%Z
  /\ step serv Main (run serv sched (g_init i w)) = None
  /\ g_ret (run serv sched (g_init i w)) = None.
Proof.
  pose proof (wait_inv_run serv sched i w) as Hinv.
  pose proof (run_progress serv sched (wait_inv_init i w)) as Hprog.
  pose proof (wait_inv_pc_index Hinv) as Hle.
  assert (Hw : g_pc (run serv sched (g_init i w)) = at_wait).
  { apply pc_index_wait. cbn [g_init g_pc pc_index] in Hprog. lia. }
  destruct Hinv as (Hret & _ & _ & _ & Hpc).
  rewrite Hw in Hpc.
  repeat split; try assumption.
  unfold step. rewrite Hw.
  destruct (g_counter _ =? 0)%Z eqn:E0; [|reflexivity].
  apply Z.eqb_eq in E0. lia.
Qed.

Lemma genAuthOutput_blocks_in_Wait_witness :
  g_pc (run scenario.service_ok scenario.eager_schedule
          (g_init scenario.issue_for_A scenario.open_world)) = at_wait
  /\ (1 <= g_counter (run scenario.service_ok scenario.eager_schedule
                        (g_init scenario.issue_for_A scenario.open_world)))%Z
  /\ step scenario.service_ok Main
       (run scenario.service_ok scenario.eager_schedule
          (g_init scenario.issue_for_A scenario.open_world)) = None
  /\ g_ret (run scenario.service_ok scenario.eager_schedule
              (g_init scenario.issue_for_A scenario.open_world)) = None.
Proof.
  apply genAuthOutput_blocks_in_Wait. simpl. lia.
Defined.

(** Under the eager schedule both goroutines have run and both calls have
    succeeded, both credentials are there, and the function still stands
    at [wg.Wait()] with the counter at two. *)
Example genAuthOutput_blocks_with_both_credentials :
  let s := run scenario.service_ok scenario.eager_schedule
             (g_init scenario.issue_for_A scenario.open_world) in
  g_pc s = at_wait
  /\ g_counter s = 2%Z
  /\ g_spawned s = []
  /\ g_refreshToken s = Some {| models.RefreshToken := "R" |}
  /\ g_accessToken s = Some {| adapters.AccessToken := "access:A";
                               adapters.ExpiresAt := 900%Z |}
  /\ g_err s = None
  /\ g_ret s = None.
Proof. vm_compute. repeat split. Qed.

(** ** RefreshToken *)

Section RefreshTokenProperties.

Context {Store : Type} (serv : AccountService Store).

(** C10: with the transaction open and the lookup answering, a
    [RefreshToken] call for a token the store does not hold fails with
    "refresh token doesn't exist" after the lookup alone and a rollback,
    the committed store untouched; for a token the store holds it mints an
    access token and returns it with its expiry, commits, and calls no
    refresh-token creation (a failed mint rolls back). *)
Theorem RefreshToken_found_or_not
    (i : RefreshAccountTokenInput) (w : World Store) (tx : sqlTx)
    (found : bool) (st : Store)
    (Hbegin : Begin (Db serv) = Ok tx)
    (Hget : RefreshToken_Get (RefreshTokenRepository serv)
              {| grt_Db := Some tx; grt_AccountId := rat_AccountId i;
                 grt_RefreshToken := rat_RefreshToken i |}
              (committed w) = (Ok found, st)) :
  let lookup :=
    EvGetRefreshToken
      {| grt_Db := Some tx; grt_AccountId := rat_AccountId i;
         grt_RefreshToken := rat_RefreshToken i |} true in
  let mint := {| adapters.ga_AccountId := rat_AccountId i |} in
  RefreshToken serv i w =
  if found then
    match adapters.GenAccess (TokenAdapter serv) mint with
    | Ok accessToken =>
        (Val (Ok {| rat_AccessToken := adapters.AccessToken accessToken;
                    rat_ExpiresAt := adapters.ExpiresAt accessToken |}),
         {| committed := st; working := st; status := TxCommitted;
            log := log w ++ [EvBegin true; lookup;
                             EvGenAccess mint true; EvCommit] |})
    | Err _ =>
        (Val (Err "fail to generate access token"),
         {| committed := committed w; working := committed w;
            status := TxRolledBack;
            log := log w ++ [EvBegin true; lookup;
                             EvGenAccess mint false; EvRollback] |})
    end
  else
    (Val (Err "refresh token doesn't exist"),
     {| committed := committed w; working := committed w;
        status := TxRolledBack;
        log := log w ++ [EvBegin true; lookup; EvRollback] |}).
Proof.
  unfold RefreshToken. run_calls.
  rewrite Hbegin. simpl. rewrite Hget. simpl.
  destruct found; simpl.
  - destruct (adapters.GenAccess _ _); simpl;
      rewrite <- !app_assoc; reflexivity.
  - rewrite <- !app_assoc. reflexivity.
Qed.

End RefreshTokenProperties.

Lemma RefreshToken_found_or_not_witness :
  RefreshToken scenario.service_ok
    {| rat_AccountId := "A"; rat_RefreshToken := "bad-token" |}
    (mem.world mem.empty)
  = (Val (Err "refresh token doesn't exist"),
     {| committed := mem.empty; working := mem.empty;
        status := TxRolledBack;
        log := [EvBegin true;
                EvGetRefreshToken
                  {| grt_Db := Some tx_handle; grt_AccountId := "A";
                     grt_RefreshToken := "bad-token" |} true;
                EvRollback] |}).
Proof.
  exact (@RefreshToken_found_or_not mem.Store scenario.service_ok
           {| rat_AccountId := "A"; rat_RefreshToken := "bad-token" |}
           (mem.world mem.empty) tx_handle false mem.empty
           eq_refl eq_refl).
Defined.

(** ** The passwordless flows *)

Section Passwordless.

Context {Store : Type} (serv : AccountService Store).

(** A run that failed with the given events. *)
Ltac failed :=
  eexists; split;
  [ simpl; rewrite <- ?app_assoc; simpl; reflexivity
  | right; unfold request_failed; simpl;
    split; [eexists; reflexivity|];
    repeat split;
    first [ reflexivity | left; reflexivity
          | right; repeat split; reflexivity ] ].

Lemma CreateFromEmailProvider_settled
    (i : CreateAccountFromEmailInput) (w : World Store) :
  email_request_settled serv i w.
Proof.
  unfold email_request_settled, email_request_committed,
    CreateFromEmailProvider.
  run_calls.
  destruct (Begin (Db serv)) as [tx|e] eqn:Hbegin; simpl; [|failed].
  destruct (GetByEmail _ _ _) as [[[existent|]|e] st] eqn:Hget; simpl;
    [| |failed].
  - destruct (MagicLinkCode_Upsert _ _ _) as [[c|e] st'] eqn:Hupsert;
      simpl; [|failed].
    destruct (adapters.SendVerificationCodeEmail _ _) eqn:Hsend; simpl;
      [failed|].
    eexists. split; [rewrite <- !app_assoc; reflexivity|].
    left. repeat split.
    exists tx, (Some existent), st.
    split; [reflexivity|]. split; [exact Hget|].
    exists (gbe_AccountId existent), false, st, [], c.
    split; [repeat split|].
    split; [exact Hupsert|]. split; [exact Hsend|]. reflexivity.
  - destruct (Create _ _ _) as [[created|e] st1] eqn:Hcreate; simpl;
      [|failed].
    destruct (MagicLinkCode_Upsert _ _ _) as [[c|e] st'] eqn:Hupsert;
      simpl; [|failed].
    destruct (adapters.SendVerificationCodeEmail _ _) eqn:Hsend; simpl;
      [failed|].
    eexists. split; [rewrite <- !app_assoc; reflexivity|].
    left. repeat split.
    exists tx, None, st.
    split; [reflexivity|]. split; [exact Hget|].
    eexists (ca_Id created), true, st1, [_], c.
    split; [exists created; repeat split; exact Hcreate|].
    split; [exact Hupsert|]. split; [exact Hsend|]. reflexivity.
Qed.

Lemma CreateFromPhoneProvider_settled
    (i : CreateAccountFromPhoneInput) (w : World Store) :
  phone_request_settled serv i w.
Proof.
  unfold phone_request_settled, phone_request_committed,
    CreateFromPhoneProvider.
  run_calls.
  destruct (Begin (Db serv)) as [tx|e] eqn:Hbegin; simpl; [|failed].
  destruct (GetByPhone _ _ _) as [[[existent|]|e] st] eqn:Hget; simpl;
    [| |failed].
  - destruct (MagicLinkCode_Upsert _ _ _) as [[c|e] st'] eqn:Hupsert;
      simpl; [|failed].
    destruct (adapters.SendVerificationCodeSms _ _) eqn:Hsend; simpl;
      [failed|].
    eexists. split; [rewrite <- !app_assoc; reflexivity|].
    left. repeat split.
    exists tx, (Some existent), st.
    split; [reflexivity|]. split; [exact Hget|].
    exists (gbp_AccountId existent), false, st, [], c.
    split; [repeat split|].
    split; [exact Hupsert|]. split; [exact Hsend|]. reflexivity.
  - destruct (Create _ _ _) as [[created|e] st1] eqn:Hcreate; simpl;
      [|failed].
    destruct (MagicLinkCode_Upsert _ _ _) as [[c|e] st'] eqn:Hupsert;
      simpl; [|failed].
    destruct (adapters.SendVerificationCodeSms _ _) eqn:Hsend; simpl;
      [failed|].
    eexists. split; [rewrite <- !app_assoc; reflexivity|].
    left. repeat split.
    exists tx, None, st.
    split; [reflexivity|]. split; [exact Hget|].
    eexists (ca_Id created), true, st1, [_], c.
    split; [exists created; repeat split; exact Hcreate|].
    split; [exact Hupsert|]. split; [exact Hsend|]. reflexivity.
Qed.

End Passwordless.

(** C7: a passwordless request, by email or by phone, commits only after
    the lookup has answered, the account has been created when the lookup
    found none (and only then), the code has been upserted for that
    account and dispatched, each of these calls successful and in this
    order; what it commits is the store the upsert left.  Otherwise some
    call failed: the request returns an error, calls no commit, rolls the
    transaction back, and leaves the committed store as it was before the
    request, so that a lookup by any identifier in a later transaction
    answers as it did before the request: an account created earlier in
    the failed request is not there. *)
Theorem passwordless_commits_all_or_nothing
    (Store : Type) (serv : AccountService Store) :
  (forall i w, email_request_settled serv i w)
  /\ (forall i w, phone_request_settled serv i w)
  /\ (forall i w e q,
        fst (CreateFromEmailProvider serv i w) = Val (Some e) ->
        GetByEmail (AccountRepository serv) q
          (committed (snd (CreateFromEmailProvider serv i w)))
        = GetByEmail (AccountRepository serv) q (committed w))
  /\ (forall i w e q,
        fst (CreateFromPhoneProvider serv i w) = Val (Some e) ->
        GetByPhone (AccountRepository serv) q
          (committed (snd (CreateFromPhoneProvider serv i w)))
        = GetByPhone (AccountRepository serv) q (committed w)).
Proof.
  split; [intros; apply CreateFromEmailProvider_settled|].
  split; [intros; apply CreateFromPhoneProvider_settled|].
  split; intros i w e q Hres.
  - destruct (CreateFromEmailProvider_settled serv i w)
      as (evs & _ & [(Hnil & _)|(_ & Hc & _)]).
    + rewrite Hres in Hnil. discriminate.
    + now rewrite Hc.
  - destruct (CreateFromPhoneProvider_settled serv i w)
      as (evs & _ & [(Hnil & _)|(_ & Hc & _)]).
    + rewrite Hres in Hnil. discriminate.
    + now rewrite Hc.
Qed.

(** The request of C7 on a fresh store with a failing mailer: the account
    is created inside the transaction, the dispatch fails, the request is
    rolled back, and a later request with a working mailer finds no
    account under a@x.com and creates it anew. *)
Example failed_dispatch_leaves_no_account :
  let failed :=
    CreateFromEmailProvider scenario.service_no_send
      {| cfe_Email := "a@x.com" |} (mem.world mem.empty) in
  fst failed = Val (Some "fail to send sms")
  /\ existsb is_create (log (snd failed)) = true
  /\ status (snd failed) = TxRolledBack
  /\ committed (snd failed) = mem.empty
  /\ fst (mem.GetByEmail {| gbe_Db := Some tx_handle;
                            gbe_Email := "a@x.com" |}
            (committed (snd failed))) = Ok None.
Proof. vm_compute. repeat split. Qed.

(** ** External sign-in, up to the issuance *)

Section ExternalSignIn.

Context {Store : Type} (serv : AccountService Store).

(** C8: a sign-in whose code is exchanged, whose scopes suffice, whose
    email is verified and for which the store returns no identity makes
    one account-store call after the lookup, [Create] with the email of
    the profile and the one identity of the event; when the call succeeds
    the flow goes on to the issuance with the new account id and
    first-access true, and when it fails the flow is rolled back with
    "fail to create account". *)
Theorem createFromExternal_creates_account_with_identity
    (i : createFromExternalProviderInput) (w : World Store) (tx : sqlTx)
    (exchangeCode : adapters.ExchangeCodeOutput)
    (providerData : adapters.GetUserDataOutput) (st : Store)
    (Htx : xdb i = Some tx)
    (Hexchange :
       adapters.ExchangeCode (providerService i)
         {| adapters.Code := code i; adapters.OriginUrl := originUrl i |}
       = Ok exchangeCode)
    (Hscopes :
       adapters.HasRequiredScopes (providerService i)
         (adapters.Scopes exchangeCode) = true)
    (Hdata :
       adapters.GetUserData (providerService i)
         (adapters.xc_AccessToken exchangeCode) = Ok providerData)
    (Hverified : adapters.IsEmailVerified providerData = true)
    (Hnone :
       GetManyByProvider (AccountRepository serv)
         {| gmp_Db := xdb i;
            gmp_ProviderId := adapters.Id providerData;
            gmp_ProviderType := providerType i;
            gmp_Email := adapters.ud_Email providerData |}
         (working w) = (Ok [], st)) :
  let account :=
    {| ca_Db := xdb i;
       ca_Email := adapters.ud_Email providerData;
       ca_Phone := zero_phone;
       ca_SignInProviders :=
         [ {| sip_Id := adapters.Id providerData;
              sip_Type := providerType i;
              sip_AccessToken := adapters.xc_AccessToken exchangeCode;
              sip_RefreshToken :=
                Some (adapters.xc_RefreshToken exchangeCode);
              sip_ExpiresAt := adapters.xc_ExpiresAt exchangeCode |} ] |} in
  let before :=
    log w ++
    [EvExchangeCode
       {| adapters.Code := code i; adapters.OriginUrl := originUrl i |}
       true;
     EvHasRequiredScopes (adapters.Scopes exchangeCode) true;
     EvGetUserData (adapters.xc_AccessToken exchangeCode) true;
     EvGetManyByProvider
       {| gmp_Db := xdb i;
          gmp_ProviderId := adapters.Id providerData;
          gmp_ProviderType := providerType i;
          gmp_Email := adapters.ud_Email providerData |} true] in
  createFromExternal_steps serv i w =
  match Create (AccountRepository serv) account st with
  | (Ok result, st') =>
      (Val (ReturnGenAuthOutput
              {| db := None; accountId := ca_Id result;
                 isFirstAccess := true; refresh := true |}),
       {| committed := committed w; working := st'; status := status w;
          log := before ++ [EvCreateAccount account true] |})
  | (Err _, st') =>
      (Val (Return (Err "fail to create account")),
       do_rollback
         {| committed := committed w; working := st'; status := status w;
            log := before ++ [EvCreateAccount account false] |})
  end.
Proof.
  intros account before. subst account before.
  unfold createFromExternal_steps. run_calls.
  rewrite Hexchange. simpl. rewrite Hscopes. simpl.
  rewrite Hdata. simpl. rewrite Hverified. simpl.
  rewrite Hnone. simpl.
  destruct (Create _ _ _) as [[result|e] st']; simpl.
  - rewrite <- !app_assoc. reflexivity.
  - rewrite Htx. simpl. rewrite <- !app_assoc. reflexivity.
Qed.

End ExternalSignIn.

Lemma createFromExternal_creates_account_with_identity_witness :
  createFromExternal_steps scenario.service_ok scenario.google_sign_in
    scenario.open_world
  = (Val (ReturnGenAuthOutput
            {| db := None; accountId := "A";
               isFirstAccess := true; refresh := true |}),
     {| committed := mem.empty;
        working :=
          {| mem.accounts :=
               [ {| mem.acc_Id := "A"; mem.acc_Email := "a@x.com";
                    mem.acc_Phone := zero_phone |} ];
             mem.identities :=
               [ {| AccountId := "A"; ProviderId := "g1";
                    ProviderType := "GOOGLE"; Email := "a@x.com" |} ];
             mem.refresh_tokens := [];
             mem.magic_codes := [] |};
        status := TxOpen;
        log :=
          [EvBegin true;
           EvExchangeCode
             {| adapters.Code := "c"; adapters.OriginUrl := "o" |} true;
           EvHasRequiredScopes ["email"] true;
           EvGetUserData "at:c" true;
           EvGetManyByProvider
             {| gmp_Db := Some tx_handle; gmp_ProviderId := "g1";
                gmp_ProviderType := "GOOGLE"; gmp_Email := "a@x.com" |}
             true;
           EvCreateAccount
             {| ca_Db := Some tx_handle; ca_Email := "a@x.com";
                ca_Phone := zero_phone;
                ca_SignInProviders :=
                  [ {| sip_Id := "g1"; sip_Type := "GOOGLE";
                       sip_AccessToken := "at:c";
                       sip_RefreshToken := Some "rt:c";
                       sip_ExpiresAt := 3600%Z |} ] |}
             true] |}).
Proof.
  exact (@createFromExternal_creates_account_with_identity
           mem.Store scenario.service_ok scenario.google_sign_in
           scenario.open_world tx_handle
           {| adapters.xc_AccessToken := "at:c";
              adapters.xc_RefreshToken := "rt:c";
              adapters.xc_ExpiresAt := 3600%Z;
              adapters.Scopes := ["email"] |}
           {| adapters.Id := "g1"; adapters.ud_Email := "a@x.com";
              adapters.IsEmailVerified := true |}
           mem.empty
           eq_refl eq_refl eq_refl eq_refl eq_refl eq_refl).
Defined.

(** ** The flows that end in genAuthOutput *)

Lemma no_tx_event_no_rollback (evs : list Event) :
  no_tx_event evs = true -> existsb is_rollback evs = false.
Proof.
  unfold no_tx_event.
  induction evs as [|e evs IH]; simpl; [reflexivity|].
  intros H. apply andb_true_iff in H. destruct H as [He Hevs].
  rewrite (IH Hevs).
  destruct e; simpl in He; try discriminate; reflexivity.
Qed.

Lemma no_tx_event_no_commit (evs : list Event) :
  no_tx_event evs = true -> existsb is_commit evs = false.
Proof.
  unfold no_tx_event.
  induction evs as [|e evs IH]; simpl; [reflexivity|].
  intros H. apply andb_true_iff in H. destruct H as [He Hevs].
  rewrite (IH Hevs).
  destruct e; simpl in He; try discriminate; reflexivity.
Qed.

Section Tail.

Context {Store : Type} (serv : AccountService Store).

(** A flow that reaches [return serv.genAuthOutput(...)] has not returned,
    whatever the schedule, and its transaction stays as the flow left
    it. *)
Lemma then_genAuthOutput_blocks (sched : list thread)
    (m : World Store -> outcome (tail AuthOutput) * World Store)
    (w w1 : World Store) (gi : genAuthOutputInput) :
  m w = (Val (ReturnGenAuthOutput gi), w1) ->
  fst (then_genAuthOutput serv sched m w) = None
  /\ committed (snd (then_genAuthOutput serv sched m w)) = committed w1
  /\ status (snd (then_genAuthOutput serv sched m w)) = status w1
  /\ exists evs,
       log (snd (then_genAuthOutput serv sched m w)) = log w1 ++ evs
       /\ no_tx_event evs = true.
Proof.
  intros Hm. unfold then_genAuthOutput. rewrite Hm.
  unfold genAuthOutput; simpl.
  destruct (wait_inv_run serv sched gi w1) as (Hret & Hc & Hst & Hlog & _).
  auto.
Qed.

(** A flow that ends in [genAuthOutput] returns errors and panics only:
    whatever it returns, it returned before the issuance. *)
Lemma then_genAuthOutput_returns_early (sched : list thread)
    (m : World Store -> outcome (tail AuthOutput) * World Store)
    (w : World Store) (r : outcome (result AuthOutput)) :
  fst (then_genAuthOutput serv sched m w) = Some r ->
  match r with
  | Val r' =>
      m w = (Val (Return r'), snd (then_genAuthOutput serv sched m w))
  | Panic msg =>
      m w = (Panic msg, snd (then_genAuthOutput serv sched m w))
  end.
Proof.
  unfold then_genAuthOutput.
  destruct (m w) as [[[r'|gi]|msg] w1] eqn:Hm; simpl.
  - intros [= <-]. reflexivity.
  - unfold genAuthOutput; simpl.
    destruct (wait_inv_run serv sched gi w1) as (Hret & _).
    rewrite Hret. discriminate.
  - intros [= <-]. reflexivity.
Qed.

End Tail.

(** C6: a Google sign-in on a fresh store with a token adapter that fails.
    The code is exchanged, the scopes checked, the profile fetched, the
    identities looked up and the account created; the issuance then fails
    to mint, and under every schedule the flow neither returns an error
    nor rolls back: the transaction stays open, and no rollback is in the
    log. *)
Theorem google_sign_in_hangs_when_mint_fails (sched : list thread) :
  fst (CreateFromGoogleProvider scenario.service_no_mint sched
         scenario.sign_in (mem.world mem.empty)) = None
  /\ status (snd (CreateFromGoogleProvider scenario.service_no_mint sched
                    scenario.sign_in (mem.world mem.empty))) = TxOpen
  /\ existsb is_rollback
       (log (snd (CreateFromGoogleProvider scenario.service_no_mint sched
                    scenario.sign_in (mem.world mem.empty)))) = false
  /\ existsb is_create
       (log (snd (CreateFromGoogleProvider scenario.service_no_mint sched
                    scenario.sign_in (mem.world mem.empty)))) = true.
Proof.
  unfold CreateFromGoogleProvider.
  let r := eval vm_compute in
      (CreateFromGoogleProvider_steps scenario.service_no_mint
         scenario.sign_in (mem.world mem.empty)) in
  assert (Hsteps :
      CreateFromGoogleProvider_steps scenario.service_no_mint
        scenario.sign_in (mem.world mem.empty) = r)
    by (vm_compute; reflexivity).
  destruct (then_genAuthOutput_blocks scenario.service_no_mint sched
              (CreateFromGoogleProvider_steps scenario.service_no_mint
                 scenario.sign_in) (mem.world mem.empty) Hsteps)
    as (Hret & _ & Hst & evs & Hlog & Hevs).
  rewrite Hret, Hst, Hlog.
  split; [reflexivity|]. split; [reflexivity|].
  split; [|reflexivity].
  rewrite existsb_app. cbn [log].
  apply orb_false_iff. split; [reflexivity|].
  apply no_tx_event_no_rollback, Hevs.
Qed.

(** Under the eager schedule of C6 the mint has run and failed, the error
    is in [err], and the function stands at [wg.Wait()]. *)
Example mint_failure_is_never_looked_at :
  let s := run scenario.service_no_mint scenario.eager_schedule
             (g_init {| db := None; accountId := "A";
                        isFirstAccess := true; refresh := true |}
                scenario.open_world) in
  g_err s = Some "signing key unavailable"
  /\ g_accessToken s = None
  /\ g_pc s = at_wait
  /\ g_ret s = None
  /\ status (g_world s) = TxOpen.
Proof. vm_compute. repeat split. Qed.


(** ** What holds of the flows before the issuance *)

Section BeforeIssuance.

Context {Store : Type} (serv : AccountService Store).

Lemma existsb_snoc_rollback (evs : list Event) :
  existsb is_rollback (evs ++ [EvRollback]) = true.
Proof.
  rewrite existsb_app. simpl. apply orb_true_r.
Qed.

Lemma do_rollback_logged (w : World Store) :
  existsb is_rollback (log (do_rollback w)) = true.
Proof.
  unfold do_rollback, emit.
  destruct (status w); simpl; apply existsb_snoc_rollback.
Qed.

Lemma do_rollback_committed (w : World Store) :
  committed (do_rollback w) = committed w.
Proof.
  unfold do_rollback, emit. destruct (status w); reflexivity.
Qed.

(** What the flows share: an early return is an error after a rollback
    that leaves the committed store alone. *)
Ltac early_return :=
  split; [rewrite do_rollback_committed; reflexivity|];
  left; split; [eauto | apply do_rollback_logged].

Lemma createFromExternal_steps_resolved
    (i : createFromExternalProviderInput) (w : World Store) (tx : sqlTx) :
  xdb i = Some tx ->
  resolved_or_rolled_back w (createFromExternal_steps serv i w).
Proof.
  intros Htx.
  unfold resolved_or_rolled_back, createFromExternal_steps.
  unfold bind, lift, ret, Rollback, store_call, adapter_call. simpl.
  rewrite Htx.
  destruct (adapters.ExchangeCode _ _) as [exchangeCode|e]; simpl;
    [|early_return].
  destruct (adapters.HasRequiredScopes _ _); simpl; [|early_return].
  destruct (adapters.GetUserData _ _) as [providerData|e]; simpl;
    [|early_return].
  destruct (adapters.IsEmailVerified providerData); simpl;
    [|early_return].
  destruct (GetManyByProvider _ _ _) as [[relatedAccounts|e] st]; simpl;
    [|early_return].
  destruct relatedAccounts as [|v rest]; simpl.
  - destruct (Create _ _ _) as [[result|e] st']; simpl; [|early_return].
    split; [reflexivity|]. right. split; [|reflexivity]. eauto.
  - destruct (relateAccount _ _ _ _) as [accountId|e]; simpl;
      [|early_return].
    split; [reflexivity|]. right. split; [|reflexivity]. eauto.
Qed.

End BeforeIssuance.

Section BeforeIssuanceGoogle.

Context {Store : Type} (serv : AccountService Store).

Lemma CreateFromGoogleProvider_steps_begin
    (i : CreateAccountFromExternalProviderInput) (w : World Store) :
  CreateFromGoogleProvider_steps serv i w
  = match Begin (Db serv) with
    | Ok tx =>
        createFromExternal_steps serv
          {| xdb := Some tx; providerService := GoogleAdapter serv;
             providerType := "GOOGLE"; code := cfx_Code i;
             originUrl := cfx_OriginUrl i |}
          {| committed := committed w; working := committed w;
             status := TxOpen; log := log w ++ [EvBegin true] |}
    | Err _ =>
        (Val (Return (Err "fail to create transaction")),
         emit (EvBegin false) w)
    end.
Proof.
  unfold CreateFromGoogleProvider_steps, bind, DbBegin, ret.
  destruct (Begin (Db serv)); reflexivity.
Qed.


End BeforeIssuanceGoogle.

(** X1: when the first candidate is the identity of the event's (provider
    type, subject id) and carries an account id, the resolution returns
    that account, whatever the stored email of the identity and whatever
    follows in the list. *)
Theorem relateAccount_first_same_provider
    (email providerId providerType : string)
    (v : GetManyAccountsByProviderOutput)
    (rest : list GetManyAccountsByProviderOutput)
    (Hsame : same_provider_as providerId providerType v = true)
    (Hid : AccountId v <> "") :
  relateAccount email providerId providerType (v :: rest)
  = Ok (AccountId v).
Proof.
  rewrite relateAccount_cons, Hsame.
  destruct (AccountId v =? "") eqn:E; [|reflexivity].
  apply String.eqb_eq in E. contradiction.
Qed.

Lemma relateAccount_first_same_provider_witness :
  relateAccount "a@x.com" "g1" "GOOGLE"
    [scenario.google_A2; scenario.facebook_A1] = Ok "A2".
Proof.
  apply (@relateAccount_first_same_provider "a@x.com" "g1" "GOOGLE"
           scenario.google_A2 [scenario.facebook_A1]).
  - reflexivity.
  - discriminate.
Defined.

(** X2: a Google sign-in whose provider grants too few scopes returns
    "missing scopes" after the exchange and the scope check alone: the
    transaction is rolled back, the committed store is the one of before,
    and no call reaches the account store. *)
Theorem google_sign_in_missing_scopes
    (Store : Type) (serv : AccountService Store) (sched : list thread)
    (i : CreateAccountFromExternalProviderInput) (w : World Store)
    (tx : sqlTx) (exchangeCode : adapters.ExchangeCodeOutput)
    (Hbegin : Begin (Db serv) = Ok tx)
    (Hexchange :
       adapters.ExchangeCode (GoogleAdapter serv)
         {| adapters.Code := cfx_Code i;
            adapters.OriginUrl := cfx_OriginUrl i |} = Ok exchangeCode)
    (Hscopes :
       adapters.HasRequiredScopes (GoogleAdapter serv)
         (adapters.Scopes exchangeCode) = false) :
  CreateFromGoogleProvider serv sched i w
  = (Some (Val (Err "missing scopes")),
     {| committed := committed w; working := committed w;
        status := TxRolledBack;
        log := log w ++
               [EvBegin true;
                EvExchangeCode
                  {| adapters.Code := cfx_Code i;
                     adapters.OriginUrl := cfx_OriginUrl i |} true;
                EvHasRequiredScopes (adapters.Scopes exchangeCode) false;
                EvRollback] |}).
Proof.
  unfold CreateFromGoogleProvider, then_genAuthOutput.
  rewrite CreateFromGoogleProvider_steps_begin, Hbegin.
  unfold createFromExternal_steps. run_calls.
  rewrite Hexchange. simpl. rewrite Hscopes. simpl.
  rewrite <- !app_assoc. reflexivity.
Qed.

Lemma google_sign_in_missing_scopes_witness :
  CreateFromGoogleProvider scenario.service_no_scope
    scenario.eager_schedule scenario.sign_in (mem.world mem.empty)
  = (Some (Val (Err "missing scopes")),
     {| committed := mem.empty; working := mem.empty;
        status := TxRolledBack;
        log := [EvBegin true;
                EvExchangeCode
                  {| adapters.Code := "c"; adapters.OriginUrl := "o" |}
                  true;
                EvHasRequiredScopes ["profile"] false;
                EvRollback] |}).
Proof.
  exact (@google_sign_in_missing_scopes mem.Store
           scenario.service_no_scope scenario.eager_schedule
           scenario.sign_in (mem.world mem.empty) tx_handle
           {| adapters.xc_AccessToken := "at:c";
              adapters.xc_RefreshToken := "rt:c";
              adapters.xc_ExpiresAt := 3600%Z;
              adapters.Scopes := ["profile"] |}
           eq_refl eq_refl eq_refl).
Defined.





(** ** ExchangeCode, up to the issuance *)

(** X5: an [ExchangeCode] call for a code the store does not hold fails with
    "magic link code doesn't exist" after the lookup alone and a
    rollback. *)
Theorem ExchangeCode_code_not_found
    (Store : Type) (serv : AccountService Store) (sched : list thread)
    (i : ExchangeAccountCodeInput) (w : World Store) (tx : sqlTx)
    (st : Store)
    (Hbegin : Begin (Db serv) = Ok tx)
    (Hget : MagicLinkCode_Get (MagicLinkCodeRepository serv)
              {| gml_Db := Some tx; gml_AccountId := eac_AccountId i;
                 gml_Code := eac_Code i |}
              (committed w) = (Ok None, st)) :
  ExchangeCode serv sched i w
  = (Some (Val (Err "magic link code doesn't exist")),
     {| committed := committed w; working := committed w;
        status := TxRolledBack;
        log := log w ++
               [EvBegin true;
                EvGetMagicLink
                  {| gml_Db := Some tx; gml_AccountId := eac_AccountId i;
                     gml_Code := eac_Code i |} true;
                EvRollback] |}).
Proof.
  unfold ExchangeCode, then_genAuthOutput, ExchangeCode_steps. run_calls.
  rewrite Hbegin. simpl. rewrite Hget. simpl.
  rewrite <- !app_assoc. reflexivity.
Qed.

Lemma ExchangeCode_code_not_found_witness :
  ExchangeCode scenario.service_ok scenario.eager_schedule
    {| eac_AccountId := "A"; eac_Code := "wrong" |}
    (mem.world scenario.store_with_code)
  = (Some (Val (Err "magic link code doesn't exist")),
     {| committed := scenario.store_with_code;
        working := scenario.store_with_code;
        status := TxRolledBack;
        log := [EvBegin true;
                EvGetMagicLink
                  {| gml_Db := Some tx_handle; gml_AccountId := "A";
                     gml_Code := "wrong" |} true;
                EvRollback] |}).
Proof.
  exact (@ExchangeCode_code_not_found mem.Store scenario.service_ok
           scenario.eager_schedule
           {| eac_AccountId := "A"; eac_Code := "wrong" |}
           (mem.world scenario.store_with_code) tx_handle
           scenario.store_with_code eq_refl eq_refl).
Defined.

(** X6: whatever [ExchangeCode] returns, under whatever schedule and over
    whatever store, is one of its three errors: no exchange returns
    credentials. *)
Theorem ExchangeCode_returns_errors_only
    (Store : Type) (serv : AccountService Store) (sched : list thread)
    (i : ExchangeAccountCodeInput) (w : World Store)
    (r : outcome (result AuthOutput))
    (Hret : fst (ExchangeCode serv sched i w) = Some r) :
  r = Val (Err "fail to create transaction")
  \/ r = Val (Err "fail to get account")
  \/ r = Val (Err "magic link code doesn't exist").
Proof.
  unfold ExchangeCode in Hret.
  apply then_genAuthOutput_returns_early in Hret.
  unfold ExchangeCode_steps in Hret. revert Hret. run_calls.
  destruct (Begin (Db serv)) as [tx|e]; simpl.
  - destruct (MagicLinkCode_Get _ _ _) as [[[c|]|e] st]; simpl;
      destruct r as [r'|msg]; intros [= <-] || intros [=]; auto.
  - destruct r as [r'|msg]; intros [= <-] || intros [=]; auto.
Qed.

Lemma ExchangeCode_returns_errors_only_witness :
  Val (A := result AuthOutput) (Err "magic link code doesn't exist")
  = Val (Err "fail to create transaction")
  \/ Val (A := result AuthOutput) (Err "magic link code doesn't exist")
     = Val (Err "fail to get account")
  \/ Val (A := result AuthOutput) (Err "magic link code doesn't exist")
     = Val (Err "magic link code doesn't exist").
Proof.
  apply (@ExchangeCode_returns_errors_only mem.Store scenario.service_ok
           scenario.eager_schedule
           {| eac_AccountId := "A"; eac_Code := "wrong" |}
           (mem.world scenario.store_with_code)).
  reflexivity.
Defined.

(** ** The resolution inside the whole flow *)

(** The scenario of C1 from the store on: the accounts A (Facebook f1,
    a@x.com) and A' (Google g1, b@x.com) exist, and the Google user g1
    signs in after changing the provider email to a@x.com.  The store
    returns both identities, the Facebook one first; the flow rolls back
    with "fail to relate account" instead of resolving to A'. *)
Example google_sign_in_fails_to_relate_drifted_email
    (sched : list thread) :
  fst (mem.GetManyByProvider
         {| gmp_Db := Some tx_handle; gmp_ProviderId := "g1";
            gmp_ProviderType := "GOOGLE"; gmp_Email := "a@x.com" |}
         scenario.store_with_two_accounts)
  = Ok [ {| AccountId := "A"; ProviderId := "f1";
            ProviderType := "FACEBOOK"; Email := "a@x.com" |};
         {| AccountId := "A'"; ProviderId := "g1";
            ProviderType := "GOOGLE"; Email := "b@x.com" |} ]
  /\ fst (CreateFromGoogleProvider scenario.service_ok sched
            scenario.sign_in (mem.world scenario.store_with_two_accounts))
     = Some (Val (Err "fail to relate account"))
  /\ status
       (snd (CreateFromGoogleProvider scenario.service_ok sched
               scenario.sign_in
               (mem.world scenario.store_with_two_accounts)))
     = TxRolledBack.
Proof. vm_compute. repeat split. Qed.

(** A refresh for a token the store holds: the access token is minted and
    returned with its expiry, the transaction is committed, and the store
    still holds the one refresh token. *)
Example RefreshToken_mints_for_a_held_token :
  let st := snd (mem.RefreshToken_Create
                   {| crt_Db := Some tx_handle; crt_AccountId := "A" |}
                   mem.empty) in
  let res := RefreshToken scenario.service_ok
               {| rat_AccountId := "A"; rat_RefreshToken := "R" |}
               (mem.world st) in
  fst res = Val (Ok {| rat_AccessToken := "access:A";
                       rat_ExpiresAt := 900%Z |})
  /\ status (snd res) = TxCommitted
  /\ mem.refresh_tokens (committed (snd res)) = [("A", "R")].
Proof. vm_compute. repeat split. Qed.

(** ** The account a passwordless request works on *)



(** ** The error variable the two goroutines share *)

(** The refresh-token creation fails and the mint succeeds.  When the mint
    runs second its assignment overwrites [err] with [nil]: the failure is
    forgotten while [refreshToken] is [nil], and lines 71-82 would commit
    and then dereference it.  When the mint runs first the failure
    stays in [err]. *)
Example shared_err_forgets_the_first_failure :
  let start := g_init scenario.issue_for_A scenario.open_world in
  let mains := [Main; Main; Main; Main; Main; Main; Main] in
  let refresh_first :=
    run scenario.service_no_refresh
      (mains ++ [Goroutine GoCreateRefreshToken; Goroutine GoGenAccess])
      start in
  let mint_first :=
    run scenario.service_no_refresh
      (mains ++ [Goroutine GoGenAccess; Goroutine GoCreateRefreshToken])
      start in
  g_err refresh_first = None
  /\ g_refreshToken refresh_first = None
  /\ fst (after_wait refresh_first (g_world refresh_first))
     = Panic nil_dereference
  /\ status (snd (after_wait refresh_first (g_world refresh_first)))
     = TxCommitted
  /\ g_err mint_first = Some "insert failed"
  /\ fst (after_wait mint_first (g_world mint_first))
     = Val (Err "fail to generate auth output").
Proof. vm_compute. repeat split. Qed.

(** ** More on the resolution *)

(** X8: when the resolution of a candidate list returns an account id, the
    id is not empty and it is the id of the first candidate, which has the
    (provider type, subject id) of the event: an identity that shares only
    the email is never the one returned. *)
Theorem relateAccount_sound
    (email providerId providerType accountId : string)
    (l : list GetManyAccountsByProviderOutput)
    (Hok : relateAccount email providerId providerType l = Ok accountId) :
  accountId <> ""
  /\ exists v rest,
       l = v :: rest
       /\ same_provider_as providerId providerType v = true
       /\ AccountId v = accountId.
Proof.
  destruct l as [|v rest].
  - discriminate Hok.
  - rewrite relateAccount_cons in Hok.
    destruct (same_provider_as providerId providerType v) eqn:Hsame;
      [|discriminate].
    destruct (AccountId v =? "") eqn:Hid; [discriminate|].
    injection Hok as <-.
    split.
    + intros Hempty. rewrite Hempty in Hid. discriminate.
    + exists v, rest. auto.
Qed.

Lemma relateAccount_sound_witness :
  "A2" <> ""
  /\ exists v rest,
       [scenario.google_A2; scenario.facebook_A1] = v :: rest
       /\ same_provider_as "g1" "GOOGLE" v = true
       /\ AccountId v = "A2".
Proof.
  apply (@relateAccount_sound "a@x.com" "g1" "GOOGLE" "A2"
           [scenario.google_A2; scenario.facebook_A1]).
  reflexivity.
Defined.

(** ** More on the external sign-in *)

Section ExternalEvents.

Context {Store : Type} (serv : AccountService Store).

Lemma do_rollback_log (w : World Store) :
  log (do_rollback w) = log w ++ [EvRollback].
Proof.
  unfold do_rollback, emit. destruct (status w); reflexivity.
Qed.

(** What the calls of [createFromExternal] before the issuance are. *)
Lemma createFromExternal_steps_events
    (i : createFromExternalProviderInput) (w : World Store) (tx : sqlTx) :
  xdb i = Some tx ->
  exists evs,
    log (snd (createFromExternal_steps serv i w)) = log w ++ evs
    /\ forallb (typed_as (providerType i)) evs = true
    /\ existsb is_commit evs = false
    /\ existsb is_issuance evs = false
    /\ (existsb is_account_store_call evs = true ->
        exists exchangeCode providerData,
          adapters.ExchangeCode (providerService i)
            {| adapters.Code := code i;
               adapters.OriginUrl := originUrl i |} = Ok exchangeCode
          /\ adapters.HasRequiredScopes (providerService i)
               (adapters.Scopes exchangeCode) = true
          /\ adapters.GetUserData (providerService i)
               (adapters.xc_AccessToken exchangeCode) = Ok providerData
          /\ adapters.IsEmailVerified providerData = true).
Proof.
  intros Htx.
  unfold createFromExternal_steps.
  unfold bind, lift, ret, Rollback, store_call, adapter_call, emit. simpl.
  rewrite Htx.
  destruct (adapters.ExchangeCode _ _) as [exchangeCode|e] eqn:Hx; simpl.
  2:{ eexists. rewrite do_rollback_log. simpl.
      split; [rewrite <- !app_assoc; reflexivity|].
      repeat split; try reflexivity. discriminate. }
  destruct (adapters.HasRequiredScopes _ _) eqn:Hs; simpl.
  2:{ eexists. rewrite do_rollback_log. simpl.
      split; [rewrite <- !app_assoc; reflexivity|].
      repeat split; try reflexivity. discriminate. }
  destruct (adapters.GetUserData _ _) as [providerData|e] eqn:Hd; simpl.
  2:{ eexists. rewrite do_rollback_log. simpl.
      split; [rewrite <- !app_assoc; reflexivity|].
      repeat split; try reflexivity. discriminate. }
  destruct (adapters.IsEmailVerified providerData) eqn:Hv; simpl.
  2:{ eexists. rewrite do_rollback_log. simpl.
      split; [rewrite <- !app_assoc; reflexivity|].
      repeat split; try reflexivity. discriminate. }
  assert (Hguard :
    exists exchangeCode0 providerData0,
      Ok exchangeCode = Ok exchangeCode0
      /\ adapters.HasRequiredScopes (providerService i)
           (adapters.Scopes exchangeCode0) = true
      /\ adapters.GetUserData (providerService i)
           (adapters.xc_AccessToken exchangeCode0) = Ok providerData0
      /\ adapters.IsEmailVerified providerData0 = true)
    by (exists exchangeCode, providerData; auto).
  destruct (GetManyByProvider _ _ _) as [[relatedAccounts|e] st]; simpl.
  2:{ eexists. rewrite do_rollback_log. simpl.
      split; [rewrite <- !app_assoc; reflexivity|].
      simpl. rewrite String.eqb_refl.
      repeat split; try reflexivity. intros _. exact Hguard. }
  destruct relatedAccounts as [|v rest]; simpl.
  - destruct (Create _ _ _) as [[result|e] st']; simpl.
    + eexists. split; [rewrite <- !app_assoc; reflexivity|].
      simpl. rewrite !String.eqb_refl.
      repeat split; try reflexivity. intros _. exact Hguard.
    + eexists. rewrite do_rollback_log. simpl.
      split; [rewrite <- !app_assoc; reflexivity|].
      simpl. rewrite !String.eqb_refl.
      repeat split; try reflexivity. intros _. exact Hguard.
  - destruct (relateAccount _ _ _ _) as [accountId|e]; simpl.
    + eexists. split; [rewrite <- !app_assoc; reflexivity|].
      simpl. rewrite !String.eqb_refl.
      repeat split; try reflexivity. intros _. exact Hguard.
    + eexists. rewrite do_rollback_log. simpl.
      split; [rewrite <- !app_assoc; reflexivity|].
      simpl. rewrite !String.eqb_refl.
      repeat split; try reflexivity. intros _. exact Hguard.
Qed.

End ExternalEvents.

(** ** More on genAuthOutput: the calls of the goroutines *)

Section GenAuthOutputCalls.

Context {Store : Type} (serv : AccountService Store).

Lemma count_calls_snoc (f : Event -> bool) (evs : list Event) (e : Event) :
  count_calls f (evs ++ [e]) = (count_calls f evs + b2n (f e))%nat.
Proof.
  unfold count_calls. rewrite filter_app, length_app. simpl.
  destruct (f e); reflexivity.
Qed.

Lemma existsb_unspawn_same (g : goroutine) (l : list goroutine) :
  existsb (goroutine_eqb g) (unspawn g l) = false.
Proof.
  unfold unspawn. induction l as [|h l IH]; simpl; [reflexivity|].
  destruct (goroutine_eqb g h) eqn:E; simpl; [exact IH|].
  now rewrite E, IH.
Qed.

Lemma existsb_unspawn_other (g h : goroutine) (l : list goroutine) :
  goroutine_eqb g h = false ->
  existsb (goroutine_eqb h) (unspawn g l)
  = existsb (goroutine_eqb h) l.
Proof.
  intros Hne. unfold unspawn.
  induction l as [|k l IH]; simpl; [reflexivity|].
  destruct (goroutine_eqb g k) eqn:E; simpl.
  - rewrite IH.
    destruct g, h, k; simpl in *; try discriminate; reflexivity.
  - now rewrite IH.
Qed.

Lemma calls_inv_init (i : genAuthOutputInput) (w0 : World Store) :
  calls_inv (g_init i w0) [].
Proof.
  unfold calls_inv, g_init; simpl. repeat split; lia.
Qed.

Lemma calls_inv_main (s s' : gstate Store) (evs : list Event) :
  calls_inv s evs -> step serv Main s = Some s' ->
  g_world s' = g_world s /\ calls_inv s' evs.
Proof.
  unfold calls_inv, step, is_spawned.
  intros (Hiss & Hr & Ha & Hc & Hd & Hif & Hpc) Hstep.
  destruct (g_pc s) eqn:Epc; simpl in *.
  - injection Hstep as <-. simpl.
    destruct (refresh (g_input s)); simpl in *; repeat split; auto; lia.
  - injection Hstep as <-. simpl.
    destruct (refresh (g_input s)); simpl in *; repeat split; auto; lia.
  - injection Hstep as <-. simpl.
    destruct (refresh (g_input s)); simpl in *; repeat split; auto; lia.
  - injection Hstep as <-. simpl. rewrite !existsb_app. simpl.
    destruct (refresh (g_input s)),
             (existsb (goroutine_eqb GoCreateRefreshToken) (g_spawned s)),
             (existsb (goroutine_eqb GoGenAccess) (g_spawned s));
      simpl in *; repeat split; auto; lia.
  - injection Hstep as <-. simpl.
    destruct (refresh (g_input s)); simpl in *; repeat split; auto; lia.
  - injection Hstep as <-. simpl.
    destruct (refresh (g_input s)); simpl in *; repeat split; auto; lia.
  - injection Hstep as <-. simpl. rewrite !existsb_app. simpl.
    destruct (refresh (g_input s)),
             (existsb (goroutine_eqb GoCreateRefreshToken) (g_spawned s)),
             (existsb (goroutine_eqb GoGenAccess) (g_spawned s));
      simpl in *; repeat split; auto; lia.
  - destruct (g_counter s =? 0)%Z eqn:E0; [|discriminate].
    apply Z.eqb_eq in E0. rewrite E0 in Hc.
    destruct (refresh (g_input s)); simpl in Hc; lia.
  - lia.
  - lia.
  - discriminate.
Qed.

Lemma calls_inv_goroutine (g : goroutine) (s s' : gstate Store)
    (evs : list Event) :
  calls_inv s evs -> step serv (Goroutine g) s = Some s' ->
  exists e, log (g_world s') = log (g_world s) ++ [e]
            /\ calls_inv s' (evs ++ [e]).
Proof.
  unfold step. destruct (is_spawned g s) eqn:Hsp; [|discriminate].
  intros (Hiss & Hr & Ha & Hc & Hd & Hif & Hpc) [= <-].
  unfold is_spawned in *.
  destruct g; unfold run_goroutine, store_call, adapter_call, emit.
  - destruct (RefreshToken_Create _ _ _) as [r st]. simpl.
    eexists. split; [reflexivity|].
    unfold calls_inv, is_spawned; simpl.
    rewrite !count_calls_snoc, forallb_app, Hiss. simpl.
    rewrite existsb_unspawn_same.
    rewrite existsb_unspawn_other by reflexivity.
    rewrite Hsp in Hr. simpl in *.
    repeat split; auto; lia.
  - simpl. eexists. split; [reflexivity|].
    unfold calls_inv, is_spawned; simpl.
    rewrite !count_calls_snoc, forallb_app, Hiss. simpl.
    rewrite existsb_unspawn_same.
    rewrite existsb_unspawn_other by reflexivity.
    rewrite Hsp in Ha. simpl in *.
    repeat split; auto; lia.
Qed.

Lemma step_keeps_input (t : thread) (s s' : gstate Store) :
  step serv t s = Some s' -> g_input s' = g_input s.
Proof.
  unfold step. destruct t as [|g].
  - destruct (g_pc s); try discriminate;
      try (destruct (g_counter s =? 0)%Z; [|discriminate]);
      try destruct (after_wait s (g_world s));
      intros [= <-]; reflexivity.
  - destruct (is_spawned g s); [|discriminate].
    intros [= <-]. destruct g; unfold run_goroutine.
    + destruct (store_call _ _ _ _); reflexivity.
    + destruct (adapter_call _ _ _ _); reflexivity.
Qed.

Lemma calls_inv_reachable (i : genAuthOutputInput) (w0 : World Store)
    (s : gstate Store) :
  reachable serv (g_init i w0) s ->
  g_input s = i
  /\ exists evs, log (g_world s) = log w0 ++ evs /\ calls_inv s evs.
Proof.
  induction 1 as [|t s s' _ (Hin & evs & Hlog & Hinv) Hstep].
  - split; [reflexivity|]. exists []. rewrite app_nil_r.
    split; [reflexivity | apply calls_inv_init].
  - split; [rewrite <- Hin; eapply step_keeps_input; eassumption|].
    destruct t as [|g].
    + destruct (calls_inv_main Hinv Hstep) as (Hw & Hinv').
      exists evs. rewrite Hw. auto.
    + destruct (calls_inv_goroutine g Hinv Hstep) as (e & Hlog' & Hinv').
      exists (evs ++ [e]). rewrite Hlog', Hlog, app_assoc. auto.
Qed.

End GenAuthOutputCalls.

Section GenAuthOutputCallsRun.

Context {Store : Type} (serv : AccountService Store).

Lemma run_app (a b : list thread) (s : gstate Store) :
  run serv (a ++ b) s = run serv b (run serv a s).
Proof.
  revert s. induction a as [|t a IH]; intros s; simpl; [reflexivity|].
  apply IH.
Qed.

Lemma calls_inv_run (sched : list thread) (i : genAuthOutputInput)
    (w0 : World Store) :
  g_input (run serv sched (g_init i w0)) = i
  /\ exists evs,
       log (g_world (run serv sched (g_init i w0))) = log w0 ++ evs
       /\ calls_inv (run serv sched (g_init i w0)) evs.
Proof.
  apply (@calls_inv_reachable Store serv). apply run_reachable.
  constructor.
Qed.

(** After its turn a goroutine is not waiting to run. *)
Lemma goroutine_turn_done (g : goroutine) (s : gstate Store) :
  is_spawned g (match step serv (Goroutine g) s with
                | Some s' => s' | None => s end) = false.
Proof.
  unfold step. destruct (is_spawned g s) eqn:Hsp; [|exact Hsp].
  unfold is_spawned.
  destruct g; unfold run_goroutine.
  - destruct (store_call _ _ _ _). simpl. apply existsb_unspawn_same.
  - destruct (adapter_call _ _ _ _). simpl. apply existsb_unspawn_same.
Qed.

(** The turn of one goroutine does not start the other. *)
Lemma goroutine_turn_other (g h : goroutine) (s : gstate Store) :
  goroutine_eqb g h = false ->
  is_spawned h (match step serv (Goroutine g) s with
                | Some s' => s' | None => s end) = is_spawned h s.
Proof.
  intros Hne. unfold step.
  destruct (is_spawned g s); [|reflexivity].
  unfold is_spawned.
  destruct g; unfold run_goroutine.
  - destruct (store_call _ _ _ _). simpl.
    now apply existsb_unspawn_other.
  - destruct (adapter_call _ _ _ _). simpl.
    now apply existsb_unspawn_other.
Qed.

End GenAuthOutputCallsRun.

(** X9: under every schedule the calls [genAuthOutput] makes are issuance
    calls only, the access token is minted at most once, and the
    refresh-token creation is called at most once, and not at all when
    [refresh] is false. *)
Theorem genAuthOutput_calls_at_most_once
    (Store : Type) (serv : AccountService Store)
    (sched : list thread) (i : genAuthOutputInput) (w : World Store) :
  exists evs,
    log (snd (genAuthOutput serv sched i w)) = log w ++ evs
    /\ forallb is_issuance evs = true
    /\ (count_calls is_refresh_create evs <= b2n (refresh i))%nat
    /\ (count_calls is_gen_access evs <= 1)%nat.
Proof.
  unfold genAuthOutput; simpl.
  destruct (calls_inv_run serv sched i w)
    as (Hin & evs & Hlog & Hiss & Hr & Ha & _).
  exists evs. rewrite Hin in Hr.
  split; [exact Hlog|]. split; [exact Hiss|].
  destruct (Nat.leb 4 _), (Nat.leb 7 _); split; lia.
Qed.

(** X10: once the function has had its seven turns, under every schedule
    the WaitGroup counter is exactly the number of [wg.Add(1)] calls made,
    two when [refresh] holds and one otherwise, and as many [wg.Done()]
    calls are deferred, none of them run. *)
Theorem genAuthOutput_counter_at_Wait
    (Store : Type) (serv : AccountService Store)
    (sched : list thread) (i : genAuthOutputInput) (w : World Store)
    (Hturns : (7 <= main_turns sched)%nat) :
  g_counter (run serv sched (g_init i w))
  = (if refresh i then 2 else 1)%Z
  /\ g_deferred (run serv sched (g_init i w))
     = (if refresh i then 2 else 1)%nat.
Proof.
  pose proof (run_progress serv sched (wait_inv_init i w)) as Hprog.
  cbn [g_init g_pc pc_index] in Hprog.
  destruct (calls_inv_run serv sched i w)
    as (Hin & evs & _ & _ & _ & _ & Hc & Hd & _ & Hpc).
  assert (Hidx : pc_index (g_pc (run serv sched (g_init i w))) = 7%nat)
    by lia.
  rewrite Hidx, Hin in Hc, Hd. simpl in Hc, Hd.
  rewrite Hc, Hd. destruct (refresh i); split; reflexivity.
Qed.

Lemma genAuthOutput_counter_at_Wait_witness :
  g_counter (run scenario.service_ok scenario.eager_schedule
               (g_init scenario.issue_for_A scenario.open_world)) = 2%Z
  /\ g_deferred (run scenario.service_ok scenario.eager_schedule
                   (g_init scenario.issue_for_A scenario.open_world))
     = 2%nat.
Proof.
  apply (@genAuthOutput_counter_at_Wait mem.Store scenario.service_ok
           scenario.eager_schedule scenario.issue_for_A
           scenario.open_world).
  simpl. lia.
Defined.

(** X11: when the function has had its seven turns and each goroutine has
    then had a turn, the access token has been minted exactly once and the
    refresh-token creation has been called exactly once when [refresh]
    holds (and never otherwise), and still nothing has returned: the
    calls are made, their results are never used. *)
Theorem genAuthOutput_calls_made_and_dropped
    (Store : Type) (serv : AccountService Store)
    (sched : list thread) (i : genAuthOutputInput) (w : World Store)
    (Hturns : (7 <= main_turns sched)%nat) :
  let all :=
    sched ++ [Goroutine GoCreateRefreshToken; Goroutine GoGenAccess] in
  fst (genAuthOutput serv all i w) = None
  /\ exists evs,
       log (snd (genAuthOutput serv all i w)) = log w ++ evs
       /\ count_calls is_refresh_create evs = b2n (refresh i)
       /\ count_calls is_gen_access evs = 1%nat.
Proof.
  intros all. subst all. unfold genAuthOutput. cbn [fst snd].
  set (all := sched ++ [Goroutine GoCreateRefreshToken;
                        Goroutine GoGenAccess]).
  split; [apply (wait_inv_run serv all i w)|].
  assert (Hsr : is_spawned GoCreateRefreshToken
                  (run serv all (g_init i w)) = false).
  { unfold all. rewrite run_app. cbn [run].
    rewrite goroutine_turn_other by reflexivity.
    apply goroutine_turn_done. }
  assert (Hsa : is_spawned GoGenAccess
                  (run serv all (g_init i w)) = false).
  { unfold all. rewrite run_app. cbn [run].
    apply goroutine_turn_done. }
  assert (Hmain : main_turns all = main_turns sched).
  { unfold all. clear.
    induction sched as [|[|g] sched IH]; simpl; auto. }
  pose proof (run_progress serv all (wait_inv_init i w)) as Hprog.
  cbn [g_init g_pc pc_index] in Hprog. rewrite Hmain in Hprog.
  pose proof (wait_inv_pc_index (wait_inv_run serv all i w)) as Hle.
  destruct (calls_inv_run serv all i w)
    as (Hin & evs & Hlog & _ & Hr & Ha & _).
  exists evs. split; [exact Hlog|].
  assert (Hidx : pc_index (g_pc (run serv all (g_init i w))) = 7%nat)
    by lia.
  rewrite Hidx, Hin, Hsr in Hr. rewrite Hidx, Hsa in Ha.
  cbn [Nat.leb b2n] in Hr, Ha. split; lia.
Qed.

Lemma genAuthOutput_calls_made_and_dropped_witness :
  fst (genAuthOutput scenario.service_ok
         (scenario.eager_schedule
          ++ [Goroutine GoCreateRefreshToken; Goroutine GoGenAccess])
         scenario.issue_for_A scenario.open_world) = None
  /\ exists evs,
       log (snd (genAuthOutput scenario.service_ok
                   (scenario.eager_schedule
                    ++ [Goroutine GoCreateRefreshToken;
                        Goroutine GoGenAccess])
                   scenario.issue_for_A scenario.open_world))
       = log scenario.open_world ++ evs
       /\ count_calls is_refresh_create evs = 1%nat
       /\ count_calls is_gen_access evs = 1%nat.
Proof.
  apply (@genAuthOutput_calls_made_and_dropped mem.Store
           scenario.service_ok scenario.eager_schedule
           scenario.issue_for_A scenario.open_world).
  simpl. lia.
Defined.

Section ExternalNeverCommits.

Context {Store : Type} (serv : AccountService Store).

Lemma then_genAuthOutput_ext (sched : list thread)
    (m m' : World Store -> outcome (tail AuthOutput) * World Store)
    (w w' : World Store) :
  m w = m' w' ->
  then_genAuthOutput serv sched m w = then_genAuthOutput serv sched m' w'.
Proof. unfold then_genAuthOutput. now intros ->. Qed.

Lemma CreateFromFacebookProvider_steps_begin
    (i : CreateAccountFromExternalProviderInput) (w : World Store) :
  CreateFromFacebookProvider_steps serv i w
  = match Begin (Db serv) with
    | Ok tx =>
        createFromExternal_steps serv
          {| xdb := Some tx; providerService := FacebookAdapter serv;
             providerType := "FACEBOOK"; code := cfx_Code i;
             originUrl := cfx_OriginUrl i |}
          {| committed := committed w; working := committed w;
             status := TxOpen; log := log w ++ [EvBegin true] |}
    | Err _ =>
        (Val (Return (Err "fail to create transaction")),
         emit (EvBegin false) w)
    end.
Proof.
  unfold CreateFromFacebookProvider_steps, bind, DbBegin, ret.
  destruct (Begin (Db serv)); reflexivity.
Qed.

(** From [createFromExternal] on, no commit is called and the committed
    store stays. *)
Lemma createFromExternal_never_commits (sched : list thread)
    (i : createFromExternalProviderInput) (w : World Store) (tx : sqlTx) :
  xdb i = Some tx ->
  committed (snd (createFromExternal serv sched i w)) = committed w
  /\ exists evs,
       log (snd (createFromExternal serv sched i w)) = log w ++ evs
       /\ existsb is_commit evs = false.
Proof.
  intros Htx. unfold createFromExternal.
  destruct (createFromExternal_steps_events serv i w Htx)
    as (evs1 & Hlog1 & _ & Hnc1 & _).
  destruct (createFromExternal_steps_resolved serv i w Htx)
    as (Hc1 & Hres).
  destruct (createFromExternal_steps serv i w) as [r w1] eqn:Hsteps.
  simpl in Hlog1, Hc1, Hres.
  destruct Hres as [[[e He] _]|[(gi & Hgi & _) _]]; subst r.
  - unfold then_genAuthOutput. rewrite Hsteps. simpl.
    split; [exact Hc1|]. exists evs1. auto.
  - destruct (then_genAuthOutput_blocks serv sched
                (createFromExternal_steps serv i) w Hsteps)
      as (_ & Hc2 & _ & evs2 & Hlog2 & Hnt2).
    split; [now rewrite Hc2|].
    exists (evs1 ++ evs2).
    rewrite Hlog2, Hlog1, app_assoc. split; [reflexivity|].
    rewrite existsb_app, Hnc1.
    now rewrite (no_tx_event_no_commit _ Hnt2).
Qed.

End ExternalNeverCommits.

(** X12: an external sign-in, by Google or by Facebook, never calls
    commit and never changes the committed store, under whatever schedule
    and whatever the adapters and the stores answer: no account and no
    identity made by a sign-in is ever published. *)
Theorem external_sign_in_never_commits
    (Store : Type) (serv : AccountService Store) (sched : list thread)
    (i : CreateAccountFromExternalProviderInput) (w : World Store) :
  (committed (snd (CreateFromGoogleProvider serv sched i w)) = committed w
   /\ exists evs,
        log (snd (CreateFromGoogleProvider serv sched i w)) = log w ++ evs
        /\ existsb is_commit evs = false)
  /\ (committed (snd (CreateFromFacebookProvider serv sched i w))
      = committed w
      /\ exists evs,
           log (snd (CreateFromFacebookProvider serv sched i w))
           = log w ++ evs
           /\ existsb is_commit evs = false).
Proof.
  split.
  - unfold CreateFromGoogleProvider.
    destruct (Begin (Db serv)) as [tx|e] eqn:Hbegin.
    + erewrite then_genAuthOutput_ext
        by (rewrite CreateFromGoogleProvider_steps_begin, Hbegin;
            reflexivity).
      match goal with
      | |- context [then_genAuthOutput serv sched
                      (createFromExternal_steps serv ?i') ?w'] =>
          destruct (@createFromExternal_never_commits Store serv sched
                      i' w' tx eq_refl) as (Hc & evs & Hlog & Hnc)
      end.
      unfold createFromExternal in Hc, Hlog.
      split; [exact Hc|].
      exists (EvBegin true :: evs). simpl in Hlog.
      rewrite Hlog, <- app_assoc. auto.
    + unfold then_genAuthOutput.
      rewrite CreateFromGoogleProvider_steps_begin, Hbegin. simpl.
      split; [reflexivity|]. exists [EvBegin false]. auto.
  - unfold CreateFromFacebookProvider.
    destruct (Begin (Db serv)) as [tx|e] eqn:Hbegin.
    + erewrite then_genAuthOutput_ext
        by (rewrite CreateFromFacebookProvider_steps_begin, Hbegin;
            reflexivity).
      match goal with
      | |- context [then_genAuthOutput serv sched
                      (createFromExternal_steps serv ?i') ?w'] =>
          destruct (@createFromExternal_never_commits Store serv sched
                      i' w' tx eq_refl) as (Hc & evs & Hlog & Hnc)
      end.
      unfold createFromExternal in Hc, Hlog.
      split; [exact Hc|].
      exists (EvBegin true :: evs). simpl in Hlog.
      rewrite Hlog, <- app_assoc. auto.
    + unfold then_genAuthOutput.
      rewrite CreateFromFacebookProvider_steps_begin, Hbegin. simpl.
      split; [reflexivity|]. exists [EvBegin false]. auto.
Qed.

(** X13: when [createFromExternal] has made a call on the account store,
    the code was exchanged, the scopes sufficed, the profile was fetched
    and its email is verified: no lookup and no creation happens for an
    unverified email or with too few scopes. *)
Theorem createFromExternal_store_call_guarded
    (Store : Type) (serv : AccountService Store)
    (i : createFromExternalProviderInput) (w : World Store) (tx : sqlTx)
    (evs : list Event)
    (Htx : xdb i = Some tx)
    (Hlog : log (snd (createFromExternal_steps serv i w)) = log w ++ evs)
    (Hcall : existsb is_account_store_call evs = true) :
  exists exchangeCode providerData,
    adapters.ExchangeCode (providerService i)
      {| adapters.Code := code i; adapters.OriginUrl := originUrl i |}
    = Ok exchangeCode
    /\ adapters.HasRequiredScopes (providerService i)
         (adapters.Scopes exchangeCode) = true
    /\ adapters.GetUserData (providerService i)
         (adapters.xc_AccessToken exchangeCode) = Ok providerData
    /\ adapters.IsEmailVerified providerData = true.
Proof.
  destruct (createFromExternal_steps_events serv i w Htx)
    as (evs' & Hlog' & _ & _ & _ & Hguard).
  rewrite Hlog in Hlog'. apply app_inv_head in Hlog'. subst evs'.
  exact (Hguard Hcall).
Qed.

Lemma createFromExternal_store_call_guarded_witness :
  exists exchangeCode providerData,
    adapters.ExchangeCode (providerService scenario.google_sign_in)
      {| adapters.Code := "c"; adapters.OriginUrl := "o" |}
    = Ok exchangeCode
    /\ adapters.HasRequiredScopes (providerService scenario.google_sign_in)
         (adapters.Scopes exchangeCode) = true
    /\ adapters.GetUserData (providerService scenario.google_sign_in)
         (adapters.xc_AccessToken exchangeCode) = Ok providerData
    /\ adapters.IsEmailVerified providerData = true.
Proof.
  apply (@createFromExternal_store_call_guarded mem.Store
           scenario.service_ok scenario.google_sign_in
           scenario.open_world tx_handle
           (List.tl (log (snd (createFromExternal_steps
                                 scenario.service_ok
                                 scenario.google_sign_in
                                 scenario.open_world))))).
  - reflexivity.
  - reflexivity.
  - reflexivity.
Defined.

(** X14: every identity lookup of a Google sign-in asks for provider type
    GOOGLE and every account it creates carries exactly one identity, of
    type GOOGLE; likewise FACEBOOK for a Facebook sign-in. *)
Theorem external_sign_in_provider_type
    (Store : Type) (serv : AccountService Store)
    (i : CreateAccountFromExternalProviderInput) (w : World Store) :
  (exists evs,
     log (snd (CreateFromGoogleProvider_steps serv i w)) = log w ++ evs
     /\ forallb (typed_as "GOOGLE") evs = true)
  /\ (exists evs,
        log (snd (CreateFromFacebookProvider_steps serv i w))
        = log w ++ evs
        /\ forallb (typed_as "FACEBOOK") evs = true).
Proof.
  split.
  - rewrite CreateFromGoogleProvider_steps_begin.
    destruct (Begin (Db serv)) as [tx|e].
    + match goal with
      | |- context [createFromExternal_steps serv ?i' ?w'] =>
          destruct (@createFromExternal_steps_events Store serv
                      i' w' tx eq_refl) as (evs & Hlog & Hty & _)
      end.
      exists (EvBegin true :: evs). simpl in Hlog, Hty.
      rewrite Hlog, <- app_assoc. auto.
    + exists [EvBegin false]. auto.
  - rewrite CreateFromFacebookProvider_steps_begin.
    destruct (Begin (Db serv)) as [tx|e].
    + match goal with
      | |- context [createFromExternal_steps serv ?i' ?w'] =>
          destruct (@createFromExternal_steps_events Store serv
                      i' w' tx eq_refl) as (evs & Hlog & Hty & _)
      end.
      exists (EvBegin true :: evs). simpl in Hlog, Hty.
      rewrite Hlog, <- app_assoc. auto.
    + exists [EvBegin false]. auto.
Qed.

(** ** More on ExchangeCode *)

(** X15: an [ExchangeCode] call that finds the code commits right after
    the lookup and before the issuance: under every schedule the committed
    store is the store the lookup left, the transaction is committed, no
    further commit or rollback is called, and so nothing the issuance
    does through the finished transaction reaches the committed store;
    the call does not return. *)
Theorem ExchangeCode_commits_before_issuance
    (Store : Type) (serv : AccountService Store) (sched : list thread)
    (i : ExchangeAccountCodeInput) (w : World Store) (tx : sqlTx)
    (magicLinkCode : MagicLinkCode) (st : Store)
    (Hbegin : Begin (Db serv) = Ok tx)
    (Hget : MagicLinkCode_Get (MagicLinkCodeRepository serv)
              {| gml_Db := Some tx; gml_AccountId := eac_AccountId i;
                 gml_Code := eac_Code i |}
              (committed w) = (Ok (Some magicLinkCode), st)) :
  fst (ExchangeCode serv sched i w) = None
  /\ committed (snd (ExchangeCode serv sched i w)) = st
  /\ status (snd (ExchangeCode serv sched i w)) = TxCommitted
  /\ exists evs,
       log (snd (ExchangeCode serv sched i w))
       = log w ++ [EvBegin true;
                   EvGetMagicLink
                     {| gml_Db := Some tx;
                        gml_AccountId := eac_AccountId i;
                        gml_Code := eac_Code i |} true;
                   EvCommit] ++ evs
       /\ no_tx_event evs = true.
Proof.
  assert (Hsteps :
    ExchangeCode_steps serv i w
    = (Val (ReturnGenAuthOutput
              {| db := Some tx; accountId := eac_AccountId i;
                 isFirstAccess := IsFirstAccess magicLinkCode;
                 refresh := true |}),
       {| committed := st; working := st; status := TxCommitted;
          log := log w ++ [EvBegin true;
                           EvGetMagicLink
                             {| gml_Db := Some tx;
                                gml_AccountId := eac_AccountId i;
                                gml_Code := eac_Code i |} true;
                           EvCommit] |})).
  { unfold ExchangeCode_steps. run_calls.
    rewrite Hbegin. simpl. rewrite Hget. simpl.
    rewrite <- !app_assoc. reflexivity. }
  unfold ExchangeCode.
  destruct (then_genAuthOutput_blocks serv sched
              (ExchangeCode_steps serv i) w Hsteps)
    as (Hret & Hc & Hst & evs & Hlog & Hevs).
  simpl in Hc, Hst, Hlog.
  repeat split; try assumption.
  exists evs. rewrite Hlog, <- app_assoc. auto.
Qed.

Lemma ExchangeCode_commits_before_issuance_witness :
  fst (ExchangeCode scenario.service_ok scenario.eager_schedule
         scenario.exchange_A_C (mem.world scenario.store_with_code))
  = None
  /\ committed
       (snd (ExchangeCode scenario.service_ok scenario.eager_schedule
               scenario.exchange_A_C
               (mem.world scenario.store_with_code)))
     = scenario.store_with_code
  /\ status
       (snd (ExchangeCode scenario.service_ok scenario.eager_schedule
               scenario.exchange_A_C
               (mem.world scenario.store_with_code)))
     = TxCommitted
  /\ exists evs,
       log (snd (ExchangeCode scenario.service_ok
                   scenario.eager_schedule scenario.exchange_A_C
                   (mem.world scenario.store_with_code)))
       = log (mem.world scenario.store_with_code)
         ++ [EvBegin true;
             EvGetMagicLink
               {| gml_Db := Some tx_handle; gml_AccountId := "A";
                  gml_Code := "C" |} true;
             EvCommit] ++ evs
       /\ no_tx_event evs = true.
Proof.
  exact (@ExchangeCode_commits_before_issuance mem.Store
           scenario.service_ok scenario.eager_schedule
           scenario.exchange_A_C (mem.world scenario.store_with_code)
           tx_handle {| ml_Code := "C"; IsFirstAccess := true |}
           scenario.store_with_code eq_refl eq_refl).
Defined.

(** ** When no transaction can be opened *)

(** X16: when [Db.Begin] fails, each of the six operations returns "fail
    to create transaction" at once: it makes no other call, neither on a
    store nor on an adapter, and leaves the stores and the transaction
    state as they were. *)
Theorem operations_fail_without_transaction
    (Store : Type) (serv : AccountService Store) (sched : list thread)
    (w : World Store) (e : error)
    (Hbegin : Begin (Db serv) = Err e) :
  let failed := emit (EvBegin false) w in
  (forall i,
     CreateFromGoogleProvider serv sched i w
     = (Some (Val (Err "fail to create transaction")), failed))
  /\ (forall i,
        CreateFromFacebookProvider serv sched i w
        = (Some (Val (Err "fail to create transaction")), failed))
  /\ (forall i,
        CreateFromEmailProvider serv i w
        = (Val (Some "fail to create transaction"), failed))
  /\ (forall i,
        CreateFromPhoneProvider serv i w
        = (Val (Some "fail to create transaction"), failed))
  /\ (forall i,
        ExchangeCode serv sched i w
        = (Some (Val (Err "fail to create transaction")), failed))
  /\ (forall i,
        RefreshToken serv i w
        = (Val (Err "fail to create transaction"), failed)).
Proof.
  intros failed. subst failed.
  repeat split; intros i.
  - unfold CreateFromGoogleProvider, then_genAuthOutput,
      CreateFromGoogleProvider_steps, bind, DbBegin, ret.
    now rewrite Hbegin.
  - unfold CreateFromFacebookProvider, then_genAuthOutput,
      CreateFromFacebookProvider_steps, bind, DbBegin, ret.
    now rewrite Hbegin.
  - unfold CreateFromEmailProvider, bind, DbBegin, ret.
    now rewrite Hbegin.
  - unfold CreateFromPhoneProvider, bind, DbBegin, ret.
    now rewrite Hbegin.
  - unfold ExchangeCode, then_genAuthOutput, ExchangeCode_steps,
      bind, DbBegin, ret.
    now rewrite Hbegin.
  - unfold RefreshToken, bind, DbBegin, ret.
    now rewrite Hbegin.
Qed.

Lemma operations_fail_without_transaction_witness :
  CreateFromEmailProvider scenario.service_db_down
    {| cfe_Email := "a@x.com" |} (mem.world mem.empty)
  = (Val (Some "fail to create transaction"),
     {| committed := mem.empty; working := mem.empty; status := TxNone;
        log := [EvBegin false] |}).
Proof.
  exact (proj1 (proj2 (proj2
           (@operations_fail_without_transaction mem.Store
              scenario.service_db_down scenario.eager_schedule
              (mem.world mem.empty) "connection refused" eq_refl)))
           {| cfe_Email := "a@x.com" |}).
Defined.

(** ** More on RefreshToken *)

(** X17: whatever the store and the token adapter answer, a
    [RefreshToken] call makes no call besides begin, the refresh-token
    lookup, the mint, commit and rollback, so it creates no refresh token
    and touches no account; and either it returns an access token after a
    commit, every call having succeeded, or it returns an error, calls no
    commit and leaves the committed store as it was. *)
Theorem RefreshToken_all_or_nothing
    (Store : Type) (serv : AccountService Store)
    (i : RefreshAccountTokenInput) (w : World Store) :
  exists evs,
    log (snd (RefreshToken serv i w)) = log w ++ evs
    /\ forallb is_refresh_flow_call evs = true
    /\ ((exists out, fst (RefreshToken serv i w) = Val (Ok out))
        /\ status (snd (RefreshToken serv i w)) = TxCommitted
        /\ all_ok evs = true
        /\ last evs EvRollback = EvCommit
        \/ (exists e, fst (RefreshToken serv i w) = Val (Err e))
           /\ committed (snd (RefreshToken serv i w)) = committed w
           /\ existsb is_commit evs = false).
Proof.
  unfold RefreshToken. run_calls.
  destruct (Begin (Db serv)) as [tx|e]; simpl.
  2:{ exists [EvBegin false]. split; [reflexivity|].
      split; [reflexivity|]. right. repeat split; eauto. }
  destruct (RefreshToken_Get _ _ _) as [[[|]|e] st]; simpl.
  - destruct (adapters.GenAccess _ _) as [accessToken|e]; simpl.
    + eexists. split; [rewrite <- !app_assoc; reflexivity|].
      split; [reflexivity|]. left. repeat split; eauto.
    + eexists. split; [rewrite <- !app_assoc; reflexivity|].
      split; [reflexivity|]. right. repeat split; eauto.
  - eexists. split; [rewrite <- !app_assoc; reflexivity|].
    split; [reflexivity|]. right. repeat split; eauto.
  - eexists. split; [rewrite <- !app_assoc; reflexivity|].
    split; [reflexivity|]. right. repeat split; eauto.
Qed.

(** ** More on the passwordless flows *)

(** X18: a passwordless request, by email or by phone, makes no call
    besides begin, the account lookup and creation, the magic-link upsert,
    the dispatch, commit and rollback: it never mints an access token,
    never creates or reads a refresh token and never reads a magic-link
    code. *)
Theorem passwordless_issues_no_credentials
    (Store : Type) (serv : AccountService Store) (w : World Store) :
  (forall i, exists evs,
     log (snd (CreateFromEmailProvider serv i w)) = log w ++ evs
     /\ forallb is_passwordless_call evs = true
     /\ existsb is_issuance evs = false)
  /\ (forall i, exists evs,
        log (snd (CreateFromPhoneProvider serv i w)) = log w ++ evs
        /\ forallb is_passwordless_call evs = true
        /\ existsb is_issuance evs = false).
Proof.
  split; intros i.
  - unfold CreateFromEmailProvider. run_calls.
    destruct (Begin (Db serv)) as [tx|e]; simpl;
      [|exists [EvBegin false]; auto].
    destruct (GetByEmail _ _ _) as [[[existent|]|e] st]; simpl.
    + destruct (MagicLinkCode_Upsert _ _ _) as [[c|e] st']; simpl.
      * destruct (adapters.SendVerificationCodeEmail _ _); simpl;
          eexists; (split; [rewrite <- !app_assoc; reflexivity|]); auto.
      * eexists; (split; [rewrite <- !app_assoc; reflexivity|]); auto.
    + destruct (Create _ _ _) as [[created|e] st']; simpl.
      * destruct (MagicLinkCode_Upsert _ _ _) as [[c|e] st'']; simpl.
        -- destruct (adapters.SendVerificationCodeEmail _ _); simpl;
             eexists; (split; [rewrite <- !app_assoc; reflexivity|]);
             auto.
        -- eexists; (split; [rewrite <- !app_assoc; reflexivity|]); auto.
      * eexists; (split; [rewrite <- !app_assoc; reflexivity|]); auto.
    + eexists; (split; [rewrite <- !app_assoc; reflexivity|]); auto.
  - unfold CreateFromPhoneProvider. run_calls.
    destruct (Begin (Db serv)) as [tx|e]; simpl;
      [|exists [EvBegin false]; auto].
    destruct (GetByPhone _ _ _) as [[[existent|]|e] st]; simpl.
    + destruct (MagicLinkCode_Upsert _ _ _) as [[c|e] st']; simpl.
      * destruct (adapters.SendVerificationCodeSms _ _); simpl;
          eexists; (split; [rewrite <- !app_assoc; reflexivity|]); auto.
      * eexists; (split; [rewrite <- !app_assoc; reflexivity|]); auto.
    + destruct (Create _ _ _) as [[created|e] st']; simpl.
      * destruct (MagicLinkCode_Upsert _ _ _) as [[c|e] st'']; simpl.
        -- destruct (adapters.SendVerificationCodeSms _ _); simpl;
             eexists; (split; [rewrite <- !app_assoc; reflexivity|]);
             auto.
        -- eexists; (split; [rewrite <- !app_assoc; reflexivity|]); auto.
      * eexists; (split; [rewrite <- !app_assoc; reflexivity|]); auto.
    + eexists; (split; [rewrite <- !app_assoc; reflexivity|]); auto.
Qed.



(** X20: once the code is upserted for an existing account, the email
    request sends that very code to the email of the request; when the
    send succeeds the request commits what the lookup and the upsert left
    and returns [nil], and when it fails the request rolls back and
    returns an error. *)
Theorem CreateFromEmailProvider_sends_upserted_code
    (Store : Type) (serv : AccountService Store)
    (i : CreateAccountFromEmailInput) (w : World Store) (tx : sqlTx)
    (a : GetAccountByEmailOutput) (c : MagicLinkCode) (st st' : Store)
    (Hbegin : Begin (Db serv) = Ok tx)
    (Hget : GetByEmail (AccountRepository serv)
              {| gbe_Db := Some tx; gbe_Email := cfe_Email i |}
              (committed w) = (Ok (Some a), st))
    (Hupsert : MagicLinkCode_Upsert (MagicLinkCodeRepository serv)
                 {| uml_Db := Some tx; uml_AccountId := gbe_AccountId a;
                    uml_IsFirstAccess := false |} st = (Ok c, st')) :
  let msg := {| adapters.sve_To := cfe_Email i;
                adapters.sve_Code := ml_Code c |} in
  let before sent :=
    log w ++
    [EvBegin true;
     EvGetByEmail {| gbe_Db := Some tx; gbe_Email := cfe_Email i |} true;
     EvUpsertMagicLink
       {| uml_Db := Some tx; uml_AccountId := gbe_AccountId a;
          uml_IsFirstAccess := false |} true;
     EvSendEmail msg sent] in
  CreateFromEmailProvider serv i w
  = match adapters.SendVerificationCodeEmail (EmailAdapter serv) msg with
    | None =>
        (Val None,
         {| committed := st'; working := st'; status := TxCommitted;
            log := before true ++ [EvCommit] |})
    | Some _ =>
        (Val (Some "fail to send sms"),
         {| committed := committed w; working := committed w;
            status := TxRolledBack;
            log := before false ++ [EvRollback] |})
    end.
Proof.
  intros msg before. subst msg before.
  unfold CreateFromEmailProvider. run_calls.
  rewrite Hbegin. simpl. rewrite Hget. simpl. rewrite Hupsert. simpl.
  destruct (adapters.SendVerificationCodeEmail _ _); simpl;
    rewrite <- !app_assoc; reflexivity.
Qed.

Lemma CreateFromEmailProvider_sends_upserted_code_witness :
  CreateFromEmailProvider scenario.service_ok {| cfe_Email := "a@x.com" |}
    (mem.world scenario.store_with_code)
  = (Val None,
     {| committed :=
          snd (mem.MagicLinkCode_Upsert
                 {| uml_Db := Some tx_handle; uml_AccountId := "A";
                    uml_IsFirstAccess := false |}
                 scenario.store_with_code);
        working :=
          snd (mem.MagicLinkCode_Upsert
                 {| uml_Db := Some tx_handle; uml_AccountId := "A";
                    uml_IsFirstAccess := false |}
                 scenario.store_with_code);
        status := TxCommitted;
        log :=
          [EvBegin true;
           EvGetByEmail {| gbe_Db := Some tx_handle;
                           gbe_Email := "a@x.com" |} true;
           EvUpsertMagicLink
             {| uml_Db := Some tx_handle; uml_AccountId := "A";
                uml_IsFirstAccess := false |} true;
           EvSendEmail {| adapters.sve_To := "a@x.com";
                          adapters.sve_Code := "C'" |} true;
           EvCommit] |}).
Proof.
  exact (@CreateFromEmailProvider_sends_upserted_code mem.Store
           scenario.service_ok {| cfe_Email := "a@x.com" |}
           (mem.world scenario.store_with_code) tx_handle
           {| gbe_AccountId := "A"; gbe_OutEmail := "a@x.com" |}
           {| ml_Code := "C'"; IsFirstAccess := false |}
           scenario.store_with_code
           (snd (mem.MagicLinkCode_Upsert
                   {| uml_Db := Some tx_handle; uml_AccountId := "A";
                      uml_IsFirstAccess := false |}
                   scenario.store_with_code))
           eq_refl eq_refl eq_refl).
Defined.

(** X21: once the code is upserted for an existing account, the phone
    request sends that very code to the country code followed by the
    number; when the send succeeds the request commits and returns [nil],
    and when it fails the request rolls back and returns an error. *)
Theorem CreateFromPhoneProvider_sends_upserted_code
    (Store : Type) (serv : AccountService Store)
    (i : CreateAccountFromPhoneInput) (w : World Store) (tx : sqlTx)
    (a : GetAccountByPhoneOutput) (c : MagicLinkCode) (st st' : Store)
    (Hbegin : Begin (Db serv) = Ok tx)
    (Hget : GetByPhone (AccountRepository serv)
              {| gbp_Db := Some tx;
                 gbp_CountryCode := CountryCode (cfp_Phone i);
                 gbp_Number := Number (cfp_Phone i) |}
              (committed w) = (Ok (Some a), st))
    (Hupsert : MagicLinkCode_Upsert (MagicLinkCodeRepository serv)
                 {| uml_Db := Some tx; uml_AccountId := gbp_AccountId a;
                    uml_IsFirstAccess := false |} st = (Ok c, st')) :
  let msg :=
    {| adapters.svs_To :=
         (CountryCode (cfp_Phone i) ++ Number (cfp_Phone i))%string;
       adapters.svs_Code := ml_Code c |} in
  let before sent :=
    log w ++
    [EvBegin true;
     EvGetByPhone
       {| gbp_Db := Some tx;
          gbp_CountryCode := CountryCode (cfp_Phone i);
          gbp_Number := Number (cfp_Phone i) |} true;
     EvUpsertMagicLink
       {| uml_Db := Some tx; uml_AccountId := gbp_AccountId a;
          uml_IsFirstAccess := false |} true;
     EvSendSms msg sent] in
  CreateFromPhoneProvider serv i w
  = match adapters.SendVerificationCodeSms (SmsAdapter serv) msg with
    | None =>
        (Val None,
         {| committed := st'; working := st'; status := TxCommitted;
            log := before true ++ [EvCommit] |})
    | Some _ =>
        (Val (Some "fail to send sms"),
         {| committed := committed w; working := committed w;
            status := TxRolledBack;
            log := before false ++ [EvRollback] |})
    end.
Proof.
  intros msg before. subst msg before.
  unfold CreateFromPhoneProvider. run_calls.
  rewrite Hbegin. simpl. rewrite Hget. simpl. rewrite Hupsert. simpl.
  destruct (adapters.SendVerificationCodeSms _ _); simpl;
    rewrite <- !app_assoc; reflexivity.
Qed.

Lemma CreateFromPhoneProvider_sends_upserted_code_witness :
  CreateFromPhoneProvider scenario.service_no_send scenario.phone_request
    (mem.world scenario.store_with_phone)
  = (Val (Some "fail to send sms"),
     {| committed := scenario.store_with_phone;
        working := scenario.store_with_phone;
        status := TxRolledBack;
        log :=
          [EvBegin true;
           EvGetByPhone
             {| gbp_Db := Some tx_handle; gbp_CountryCode := "+55";
                gbp_Number := "11999990000" |} true;
           EvUpsertMagicLink
             {| uml_Db := Some tx_handle; uml_AccountId := "A";
                uml_IsFirstAccess := false |} true;
           EvSendSms {| adapters.svs_To := "+5511999990000";
                        adapters.svs_Code := "C'" |} false;
           EvRollback] |}).
Proof.
  exact (@CreateFromPhoneProvider_sends_upserted_code mem.Store
           scenario.service_no_send scenario.phone_request
           (mem.world scenario.store_with_phone) tx_handle
           {| gbp_AccountId := "A"; gbp_OutCountryCode := "+55";
              gbp_OutNumber := "11999990000" |}
           {| ml_Code := "C'"; IsFirstAccess := false |}
           scenario.store_with_phone
           (snd (mem.MagicLinkCode_Upsert
                   {| uml_Db := Some tx_handle; uml_AccountId := "A";
                      uml_IsFirstAccess := false |}
                   scenario.store_with_phone))
           eq_refl eq_refl eq_refl).
Defined.

(** ** More on the external sign-in: the unverified email *)

(** X22: a Facebook sign-in whose profile email is not verified by the
    provider returns "unverified email" after the exchange, the scope
    check and the profile fetch: the transaction is rolled back, the
    committed store is the one of before, and no call reaches the account
    store. *)
Theorem facebook_sign_in_unverified_email
    (Store : Type) (serv : AccountService Store) (sched : list thread)
    (i : CreateAccountFromExternalProviderInput) (w : World Store)
    (tx : sqlTx) (exchangeCode : adapters.ExchangeCodeOutput)
    (providerData : adapters.GetUserDataOutput)
    (Hbegin : Begin (Db serv) = Ok tx)
    (Hexchange :
       adapters.ExchangeCode (FacebookAdapter serv)
         {| adapters.Code := cfx_Code i;
            adapters.OriginUrl := cfx_OriginUrl i |} = Ok exchangeCode)
    (Hscopes :
       adapters.HasRequiredScopes (FacebookAdapter serv)
         (adapters.Scopes exchangeCode) = true)
    (Hdata :
       adapters.GetUserData (FacebookAdapter serv)
         (adapters.xc_AccessToken exchangeCode) = Ok providerData)
    (Hunverified : adapters.IsEmailVerified providerData = false) :
  CreateFromFacebookProvider serv sched i w
  = (Some (Val (Err "unverified email")),
     {| committed := committed w; working := committed w;
        status := TxRolledBack;
        log := log w ++
               [EvBegin true;
                EvExchangeCode
                  {| adapters.Code := cfx_Code i;
                     adapters.OriginUrl := cfx_OriginUrl i |} true;
                EvHasRequiredScopes (adapters.Scopes exchangeCode) true;
                EvGetUserData (adapters.xc_AccessToken exchangeCode) true;
                EvRollback] |}).
Proof.
  unfold CreateFromFacebookProvider, then_genAuthOutput.
  rewrite CreateFromFacebookProvider_steps_begin, Hbegin.
  unfold createFromExternal_steps. run_calls.
  rewrite Hexchange. simpl. rewrite Hscopes. simpl.
  rewrite Hdata. simpl. rewrite Hunverified. simpl.
  rewrite <- !app_assoc. reflexivity.
Qed.

Lemma facebook_sign_in_unverified_email_witness :
  CreateFromFacebookProvider scenario.service_unverified
    scenario.eager_schedule scenario.sign_in (mem.world mem.empty)
  = (Some (Val (Err "unverified email")),
     {| committed := mem.empty; working := mem.empty;
        status := TxRolledBack;
        log := [EvBegin true;
                EvExchangeCode
                  {| adapters.Code := "c"; adapters.OriginUrl := "o" |}
                  true;
                EvHasRequiredScopes ["email"] true;
                EvGetUserData "at:c" true;
                EvRollback] |}).
Proof.
  exact (@facebook_sign_in_unverified_email mem.Store
           scenario.service_unverified scenario.eager_schedule
           scenario.sign_in (mem.world mem.empty) tx_handle
           {| adapters.xc_AccessToken := "at:c";
              adapters.xc_RefreshToken := "rt:c";
              adapters.xc_ExpiresAt := 3600%Z;
              adapters.Scopes := ["email"] |}
           {| adapters.Id := "f1"; adapters.ud_Email := "a@x.com";
              adapters.IsEmailVerified := false |}
           eq_refl eq_refl eq_refl eq_refl eq_refl).
Defined.
